(** * miner_monitor.py: the status-report renderer and its HTTP client

    A shallow embedding of [src/miner_monitor.py]: the Python values a JSON
    response decodes to, the few runtime operations the program applies to
    them ([dict.get], [len], iteration, f-string formatting, [str.upper]),
    the renderer [MinerAPI.parse_miner_stats] as a program that prints lines
    and may raise, the constructor [MinerAPI.__init__] and the two HTTP
    calls.

    Conventions.  A line of the output is the text of one [print] call; the
    headings carry their leading newline inside the line.  Line numbers of
    the report count from 0.  The current time enters the renderer as the
    string [datetime.now().strftime(...)] returns.  A [str] is held as its
    UTF-8 bytes. *)

From Stdlib Require Import ZArith String Ascii List Bool Lia.
From Stdlib Require Import Floats.SpecFloat.
From stdpp Require Import gmap strings pretty.
Import ListNotations.

Set Warnings "-register-all".

(** ** Python values and runtime operations *)

Module Py.

(** What [json.loads] produces: [None], [bool], [int], [float], [str],
    [list] and [dict].  A [dict] keeps its insertion order (it shows when a
    dict is printed), so it is a list of bindings; [json.loads] never
    produces a repeated key. *)
Inductive value : Type :=
| VNone
| VBool (b : bool)
| VInt (n : Z)
| VFloat (f : spec_float)
| VStr (s : string)
| VList (l : list value)
| VDict (d : list (string * value)).

(** The exceptions the modelled operations raise. *)
Inductive exn : Type :=
| AttributeError
| TypeError
| ValueError
| OverflowError
| KeyError.

(** Evaluation of an expression: a value or a raised exception. *)
Inductive result (A : Type) : Type :=
| Ok (a : A)
| Raise (e : exn).
Arguments Ok {A} a.
Arguments Raise {A} e.

Definition rbind {A B : Type} (r : result A) (k : A -> result B) : result B :=
  match r with
  | Ok a => k a
  | Raise e => Raise e
  end.

(** Execution of statements: the lines printed, in order, and how the
    execution ended.  The lines printed before an exception stay printed. *)
Definition io (A : Type) : Type := (list string * result A)%type.

Definition ret {A : Type} (a : A) : io A := ([], Ok a).

Definition bind {A B : Type} (m : io A) (k : A -> io B) : io B :=
  match snd m with
  | Ok a => (fst m ++ fst (k a), snd (k a))
  | Raise e => (fst m, Raise e)
  end.

(** An expression evaluated for its value, as in an assignment. *)
Definition eval {A : Type} (r : result A) : io A := ([], r).

(** [print(line)]: the argument is evaluated first; if that raises, nothing
    is printed. *)
Definition print (line : result string) : io unit :=
  match line with
  | Ok s => ([s], Ok tt)
  | Raise e => ([], Raise e)
  end.

Fixpoint for_each {A : Type} (l : list A) (body : A -> io unit) : io unit :=
  match l with
  | [] => ret tt
  | x :: rest => bind (body x) (fun _ => for_each rest body)
  end.

(** *** Strings *)

Definition nl : string := String "010"%char EmptyString.

(** [s * n] *)
Fixpoint str_mul (s : string) (n : nat) : string :=
  match n with
  | O => EmptyString
  | S k => s +:+ str_mul s k
  end.

Definition zeros (n : nat) : string := str_mul "0" n.

(** [s.startswith(p)] *)
Fixpoint starts_with (p s : string) : bool :=
  match p with
  | EmptyString => true
  | String a p' =>
      match s with
      | EmptyString => false
      | String b s' => Ascii.eqb a b && starts_with p' s'
      end
  end.

(** [sub in s] for strings. *)
Fixpoint str_contains (sub s : string) : bool :=
  starts_with sub s ||
  match s with
  | EmptyString => false
  | String _ rest => str_contains sub rest
  end.

(** Strings are held as their UTF-8 bytes; a code point starts at every byte
    that is not a continuation byte [10xxxxxx]. *)
Definition is_continuation (c : ascii) : bool :=
  let n := nat_of_ascii c in (128 <=? n)%nat && (n <? 192)%nat.

Definition is_ascii_char (c : ascii) : bool := (nat_of_ascii c <? 128)%nat.

Fixpoint is_ascii (s : string) : bool :=
  match s with
  | EmptyString => true
  | String c rest => is_ascii_char c && is_ascii rest
  end.

(** [len(s)]: the number of code points. *)
Fixpoint str_len (s : string) : nat :=
  match s with
  | EmptyString => O
  | String c rest => if is_continuation c then str_len rest else S (str_len rest)
  end.

(** The code points of [s], each as a string of its own: what iterating over
    a [str] yields. *)
Fixpoint code_points (s : string) : list string :=
  match s with
  | EmptyString => []
  | String c rest =>
      match code_points rest with
      | p :: ps =>
          match rest with
          | String c' _ => if is_continuation c' then (String c p) :: ps
                           else String c EmptyString :: p :: ps
          | EmptyString => String c EmptyString :: p :: ps
          end
      | [] => [String c EmptyString]
      end
  end.

Definition upper_char (c : ascii) : ascii :=
  let n := nat_of_ascii c in
  if (97 <=? n)%nat && (n <=? 122)%nat then ascii_of_nat (n - 32) else c.

Fixpoint ascii_upper (s : string) : string :=
  match s with
  | EmptyString => EmptyString
  | String c rest => String (upper_char c) (ascii_upper rest)
  end.

(** *** The parts of the runtime the program relies on but does not contain

    [repr] of a [float] (the shortest digits that read back as the same
    double), [repr] of a [str] (quoting and escaping by Unicode category) and
    [str.upper] outside ASCII (the Unicode case tables).  Everything below
    holds for whatever these three are. *)
Record runtime : Type := {
  float_repr : spec_float -> string;
  str_repr : string -> string;
  unicode_upper : string -> string
}.

Section Runtime.
Variable rt : runtime.

(** [s.upper()] *)
Definition str_upper (s : string) : string :=
  if is_ascii s then ascii_upper s else unicode_upper rt s.

(** [repr(v)], which [str] of a list or dict applies to the members. *)
Fixpoint repr (v : value) : string :=
  match v with
  | VNone => "None"
  | VBool true => "True"
  | VBool false => "False"
  | VInt n => pretty n
  | VFloat f => float_repr rt f
  | VStr s => str_repr rt s
  | VList l => "[" +:+ String.concat ", " (map repr l) +:+ "]"
  | VDict d =>
      "{" +:+ String.concat ", "
                (map (fun kv => str_repr rt (fst kv) +:+ ": " +:+ repr (snd kv)) d)
          +:+ "}"
  end.

(** [format(v, '')], that is [str(v)]: a replacement field [{v}] of an
    f-string. *)
Definition str_of (v : value) : string :=
  match v with
  | VStr s => s
  | _ => repr v
  end.

End Runtime.

(** *** Numbers under the format [.pf] *)

#[local] Open Scope Z_scope.

(** [float(n)] for an [int]: the nearest double, ties to the even mantissa,
    given here as the integer it denotes. *)
Definition round_to_double (n : Z) : Z :=
  let a := Z.abs n in
  let bits := Z.log2 a + 1 in
  if bits <=? 53 then n
  else
    let sh := bits - 53 in
    let q := Z.shiftr a sh in
    let r := a - Z.shiftl q sh in
    let half := Z.shiftl 1 (sh - 1) in
    let q' := if (half <? r) || ((r =? half) && Z.odd q) then q + 1 else q in
    Z.sgn n * Z.shiftl q' sh.

(** [OverflowError: int too large to convert to float] from [2^1024] on. *)
Definition int_to_float (n : Z) : result Z :=
  let d := round_to_double n in
  if Z.abs d <? 2 ^ 1024 then Ok d else Raise OverflowError.

(** [q] printed with its last [p] digits after the point. *)
Definition fixed_digits (p : nat) (q : Z) : string :=
  let scale := 10 ^ Z.of_nat p in
  let frac := pretty (q mod scale) in
  pretty (q / scale) +:+
  match p with
  | O => EmptyString
  | _ => "." +:+ zeros (p - String.length frac)%nat +:+ frac
  end.

Definition sign_str (s : bool) : string := if s then "-" else EmptyString.

(** [format(f, '.pf')] for a [float]: the exact value rounded to [p]
    decimals, ties to even. *)
Definition float_fixed (p : nat) (f : spec_float) : string :=
  match f with
  | S754_zero s => sign_str s +:+ fixed_digits p 0
  | S754_infinity s => sign_str s +:+ "inf"
  | S754_nan => "nan"
  | S754_finite s m e =>
      let num := Z.pos m * 10 ^ Z.of_nat p * 2 ^ Z.max e 0 in
      let den := 2 ^ Z.max (- e) 0 in
      let q := num / den in
      let r := num mod den in
      let q' := if (den <? 2 * r) || ((2 * r =? den) && Z.odd q) then q + 1 else q in
      sign_str s +:+ fixed_digits p q'
  end.

(** [format(v, '.pf')]: a replacement field [{v:.pf}].  [bool] is an [int];
    an [int] is converted to [float] first; [str] rejects the format code
    with [ValueError]; [None], lists and dicts accept no format string at
    all ([TypeError]). *)
Definition format_f (p : nat) (v : value) : result string :=
  match v with
  | VInt n =>
      rbind (int_to_float n)
        (fun d => Ok (sign_str (d <? 0) +:+ fixed_digits p (Z.abs d * 10 ^ Z.of_nat p)))
  | VBool b => Ok (fixed_digits p ((if b then 1 else 0) * 10 ^ Z.of_nat p))
  | VFloat f => Ok (float_fixed p f)
  | VStr _ => Raise ValueError
  | VNone | VList _ | VDict _ => Raise TypeError
  end.

#[local] Close Scope Z_scope.

(** A runtime to evaluate examples with: exact on strings of printable ASCII
    without quotes or backslashes and on doubles whose shortest form has one
    decimal.  The examples below print neither a float nor a container and
    upper-case ASCII only, so they do not depend on it. *)
Definition sample_runtime : runtime :=
  {| float_repr := float_fixed 1;
     str_repr := fun s => "'" +:+ s +:+ "'";
     unicode_upper := ascii_upper |}.

(** *** Operations on values *)

(** The binding of [key] in a dict. *)
Fixpoint dict_lookup (key : string) (d : list (string * value)) : option value :=
  match d with
  | [] => None
  | (k, v) :: rest => if String.eqb k key then Some v else dict_lookup key rest
  end.

(** [obj.get(key, default)]: only a dict has the method. *)
Definition get (key : string) (default : value) (obj : value) : result value :=
  match obj with
  | VDict d =>
      Ok match dict_lookup key d with
         | Some v => v
         | None => default
         end
  | _ => Raise AttributeError
  end.

(** [obj[key]] for a [str] key. *)
Definition getitem (key : string) (obj : value) : result value :=
  match obj with
  | VDict d =>
      match dict_lookup key d with
      | Some v => Ok v
      | None => Raise KeyError
      end
  | _ => Raise TypeError
  end.

(** [v == s] for a [str] literal [s]: only an equal [str] is equal to it. *)
Definition eq_str (v : value) (s : string) : bool :=
  match v with
  | VStr t => String.eqb t s
  | _ => false
  end.

(** [key in obj] for a [str] literal [key]. *)
Definition contains (key : string) (obj : value) : result bool :=
  match obj with
  | VDict d => Ok match dict_lookup key d with Some _ => true | None => false end
  | VList l => Ok (existsb (fun x => eq_str x key) l)
  | VStr s => Ok (str_contains key s)
  | _ => Raise TypeError
  end.

(** Truth value of an object, as [not obj] and [if obj] take it. *)
Definition truthy (v : value) : bool :=
  match v with
  | VNone => false
  | VBool b => b
  | VInt n => negb (n =? 0)%Z
  | VFloat (S754_zero _) => false
  | VFloat _ => true
  | VStr s => negb (String.eqb s EmptyString)
  | VList l => match l with [] => false | _ => true end
  | VDict d => match d with [] => false | _ => true end
  end.

(** [len(obj)] *)
Definition len (obj : value) : result value :=
  match obj with
  | VList l => Ok (VInt (Z.of_nat (length l)))
  | VDict d => Ok (VInt (Z.of_nat (length d)))
  | VStr s => Ok (VInt (Z.of_nat (str_len s)))
  | _ => Raise TypeError
  end.

(** What [for x in obj] goes through: the members of a list, the keys of a
    dict, the code points of a [str]. *)
Definition iter (obj : value) : result (list value) :=
  match obj with
  | VList l => Ok l
  | VDict d => Ok (map (fun kv => VStr (fst kv)) d)
  | VStr s => Ok (map VStr (code_points s))
  | _ => Raise TypeError
  end.

(** *** f-strings *)

(** The parts of an f-string: literal text, a field [{e}] and a field
    [{e:.pf}]. *)
Inductive piece : Type :=
| Lit (s : string)
| Field (e : result value)
| FieldF (p : nat) (e : result value).

Section Format.
Variable rt : runtime.

(** [obj.upper()]: only a [str] has the method. *)
Definition upper (obj : value) : result value :=
  match obj with
  | VStr s => Ok (VStr (str_upper rt s))
  | _ => Raise AttributeError
  end.

Definition piece_str (p : piece) : result string :=
  match p with
  | Lit s => Ok s
  | Field e => rbind e (fun v => Ok (str_of rt v))
  | FieldF p e => rbind e (format_f p)
  end.

(** The parts are evaluated and formatted from left to right; the first
    exception ends the evaluation. *)
Fixpoint fstring (ps : list piece) : result string :=
  match ps with
  | [] => Ok EmptyString
  | p :: rest =>
      rbind (piece_str p) (fun s => rbind (fstring rest) (fun t => Ok (s +:+ t)))
  end.

(** [print(f"...")] *)
Definition printf (ps : list piece) : io unit := print (fstring ps).

(** A part whose evaluation raises nothing. *)
Definition piece_ok (p : piece) : Prop := exists s, piece_str p = Ok s.

End Format.

End Py.

(** ** The renderer: [MinerAPI.parse_miner_stats] *)

Module Report.
Import Py.

Declare Scope py_scope.
Delimit Scope py_scope with py.
Notation "e >>= f" := (rbind e f) (at level 58, left associativity) : py_scope.
Notation "x <~ m ;; k" := (bind m (fun x => k))
  (at level 100, m at next level, k at level 100, right associativity) : py_scope.
Notation "m >> k" := (bind m (fun _ => k))
  (at level 100, k at level 100, right associativity) : py_scope.
#[local] Open Scope py_scope.

Section Renderer.
Variable rt : runtime.

#[local] Abbreviation printf := (Py.printf rt).

(** [not data or 'miner' not in data] (line 52) *)
Definition no_miner_data (data : value) : result bool :=
  if negb (truthy data) then Ok true
  else contains "miner" data >>= fun b => Ok (negb b).

(** Lines 58-60; [now] is [datetime.now().strftime('%Y-%m-%d %H:%M:%S')]. *)
Definition header (now : string) : io unit :=
  print (Ok (str_mul "=" 60)) >>
  printf [Lit "MINER STATISTICS - "; Field (Ok (VStr now))] >>
  print (Ok (str_mul "=" 60)).

(** Lines 63-64 *)
Definition basic_info (miner : value) : io unit :=
  printf [Lit (nl +:+ "🔧 Miner Type: "); Field (get "miner_type" (VStr "N/A") miner)] >>
  printf [Lit "📊 Status: ";
          Field (get "miner_status" (VDict []) miner
                 >>= get "miner_state" (VStr "N/A") >>= upper rt)].

(** Lines 67-71 *)
Definition hashrate (miner : value) : io unit :=
  printf [Lit (nl +:+ "⚡ HASHRATE:")] >>
  printf [Lit "  • Average:  "; FieldF 2 (get "average_hashrate" (VInt 0) miner); Lit " TH/s"] >>
  printf [Lit "  • Instant:  "; FieldF 2 (get "instant_hashrate" (VInt 0) miner); Lit " TH/s"] >>
  printf [Lit "  • Nominal:  "; FieldF 2 (get "hr_nominal" (VInt 0) miner); Lit " TH/s"] >>
  printf [Lit "  • Realtime: "; FieldF 2 (get "hr_realtime" (VInt 0) miner); Lit " GH/s"].

(** Lines 74-76 *)
Definition power (miner : value) : io unit :=
  printf [Lit (nl +:+ "⚡ POWER:")] >>
  printf [Lit "  • Consumption: "; Field (get "power_consumption" (VInt 0) miner); Lit " W"] >>
  printf [Lit "  • Efficiency:  "; FieldF 2 (get "power_efficiency" (VInt 0) miner); Lit " W/TH"].

(** Lines 79-83 *)
Definition temperature (miner : value) : io unit :=
  pcb_temp <~ eval (get "pcb_temp" (VDict []) miner) ;;
  chip_temp <~ eval (get "chip_temp" (VDict []) miner) ;;
  printf [Lit (nl +:+ "🌡️  TEMPERATURE:")] >>
  printf [Lit "  • PCB:  "; Field (get "min" (VInt 0) pcb_temp); Lit "°C - ";
          Field (get "max" (VInt 0) pcb_temp); Lit "°C"] >>
  printf [Lit "  • Chip: "; Field (get "min" (VInt 0) chip_temp); Lit "°C - ";
          Field (get "max" (VInt 0) chip_temp); Lit "°C"].

(** Lines 86-88 *)
Definition errors (miner : value) : io unit :=
  printf [Lit (nl +:+ "❌ ERRORS:")] >>
  printf [Lit "  • Hardware Errors: "; Field (get "hw_errors" (VInt 0) miner); Lit " (";
          Field (get "hw_errors_percent" (VInt 0) miner); Lit "%)"] >>
  printf [Lit "  • Hashrate Error:  "; Field (get "hr_error" (VInt 0) miner)].

(** Lines 91-93 *)
Definition dev_fee (miner : value) : io unit :=
  printf [Lit (nl +:+ "💰 DEV FEE:")] >>
  printf [Lit "  • Percentage: "; FieldF 3 (get "devfee_percent" (VInt 0) miner); Lit "%"] >>
  printf [Lit "  • Value:      "; FieldF 2 (get "devfee" (VInt 0) miner)].

(** Lines 99-102: the body of [for pool in pools]. *)
Definition pool_body (pool : value) : io unit :=
  status_icon <~ eval (get "status" VNone pool >>= fun s =>
                       Ok (if eq_str s "active" then "✓" else "○")) ;;
  printf [Lit "  "; Field (Ok (VStr status_icon)); Lit " ["; Field (get "id" VNone pool);
          Lit "] "; Field (get "url" (VStr "N/A") pool)] >>
  printf [Lit "     Status: "; Field (get "status" (VStr "N/A") pool);
          Lit " | Diff: "; Field (get "diff" (VStr "N/A") pool)] >>
  printf [Lit "     Accepted: "; Field (get "accepted" (VInt 0) pool);
          Lit " | Rejected: "; Field (get "rejected" (VInt 0) pool);
          Lit " | Stale: "; Field (get "stale" (VInt 0) pool)].

(** Lines 96-102 *)
Definition pools (miner : value) : io unit :=
  pools <~ eval (get "pools" (VList []) miner) ;;
  printf [Lit (nl +:+ "🏊 POOLS ("); Field (len pools); Lit "):"] >>
  members <~ eval (iter pools) ;;
  for_each members pool_body.

(** Line 111: the body of [for fan in fans]. *)
Definition fan_body (fan : value) : io unit :=
  printf [Lit "  • Fan "; Field (get "id" VNone fan); Lit ": ";
          Field (get "rpm" (VInt 0) fan); Lit " RPM (";
          Field (get "status" (VStr "N/A") fan); Lit ")"].

(** Lines 105-111 *)
Definition cooling (miner : value) : io unit :=
  cooling <~ eval (get "cooling" (VDict []) miner) ;;
  fans <~ eval (get "fans" (VList []) cooling) ;;
  printf [Lit (nl +:+ "🌀 COOLING:")] >>
  printf [Lit "  • Fan Duty: "; Field (get "fan_duty" (VInt 0) cooling); Lit "%"] >>
  printf [Lit "  • Mode: ";
          Field (get "settings" (VDict []) cooling >>= get "mode" (VDict [])
                 >>= get "name" (VStr "N/A"))] >>
  members <~ eval (iter fans) ;;
  for_each members fan_body.

(** Lines 117-122: the body of [for chain in chains]. *)
Definition chain_body (chain : value) : io unit :=
  printf [Lit "  • Chain "; Field (get "id" VNone chain); Lit ":"] >>
  printf [Lit "     Frequency: "; Field (get "frequency" (VInt 0) chain);
          Lit " MHz | Voltage: "; Field (get "voltage" (VInt 0) chain); Lit " mV"] >>
  printf [Lit "     Hashrate: "; FieldF 2 (get "hashrate_rt" (VInt 0) chain);
          Lit " GH/s ("; FieldF 2 (get "hashrate_percentage" (VInt 0) chain); Lit "%)"] >>
  printf [Lit "     Power: "; Field (get "power_consumption" (VInt 0) chain); Lit " W"] >>
  chip_status <~ eval (get "chip_statuses" (VDict []) chain) ;;
  printf [Lit "     Chips: Grey="; Field (get "grey" (VInt 0) chip_status);
          Lit ", Orange="; Field (get "orange" (VInt 0) chip_status);
          Lit ", Red="; Field (get "red" (VInt 0) chip_status)].

(** Lines 114-122 *)
Definition chains (miner : value) : io unit :=
  chains <~ eval (get "chains" (VList []) miner) ;;
  printf [Lit (nl +:+ "⛓️  HASH CHAINS ("); Field (len chains); Lit "):"] >>
  members <~ eval (iter chains) ;;
  for_each members chain_body.

(** Line 124 *)
Definition footer : io unit :=
  print (Ok (nl +:+ str_mul "=" 60)).

(** Lines 56-124: the report of [miner = data['miner']]. *)
Definition report (now : string) (miner : value) : io unit :=
  header now >> basic_info miner >> hashrate miner >> power miner >>
  temperature miner >> errors miner >> dev_fee miner >> pools miner >>
  cooling miner >> chains miner >> footer.

(** [parse_miner_stats(self, data)] (lines 50-124) *)
Definition parse_miner_stats (now : string) (data : value) : io unit :=
  absent <~ eval (no_miner_data data) ;;
  if absent then print (Ok "No miner data available")
  else miner <~ eval (getitem "miner" data) ;; report now miner.

End Renderer.

(** *** The sections of the report

    The report has eleven sections in a fixed order.  Each opens with a line
    of its own: the title line of the banner, the miner-type line, the
    headings of the hashrate, power, temperature, errors, dev-fee, pools,
    cooling and hash-chains blocks, and the closing banner. *)
Definition section_headings : list string :=
  [ "MINER STATISTICS - ";
    nl +:+ "🔧 Miner Type: ";
    nl +:+ "⚡ HASHRATE:";
    nl +:+ "⚡ POWER:";
    nl +:+ "🌡️  TEMPERATURE:";
    nl +:+ "❌ ERRORS:";
    nl +:+ "💰 DEV FEE:";
    nl +:+ "🏊 POOLS (";
    nl +:+ "🌀 COOLING:";
    nl +:+ "⛓️  HASH CHAINS (";
    nl +:+ str_mul "=" 60 ].

Fixpoint find_heading (i : nat) (hs : list string) (line : string) : option nat :=
  match hs with
  | [] => None
  | h :: rest => if starts_with h line then Some i else find_heading (S i) rest line
  end.

(** The section a printed line opens, if it opens one. *)
Definition section_marker (line : string) : option nat :=
  find_heading 1 section_headings line.

(** The sections opened by the lines of an output, in order. *)
Definition sections_of (out : list string) : list nat := omap section_marker out.

(** *** The shape the renderer expects of a document

    Every key may be absent.  A key that is present holds what the renderer
    uses it as: a number where it is formatted with [.2f] or [.3f], a string
    where it is upper-cased, a dict where [.get] is called on it, a list of
    dicts where it is iterated.  Fields that are only printed may hold
    anything. *)
Definition absent_or (P : value -> bool) (key : string) (d : list (string * value)) : bool :=
  match dict_lookup key d with
  | None => true
  | Some v => P v
  end.

Definition is_number (v : value) : bool :=
  match v with
  | VInt n => (Z.abs (round_to_double n) <? 2 ^ 1024)%Z
  | VBool _ | VFloat _ => true
  | _ => false
  end.

Definition is_str (v : value) : bool :=
  match v with VStr _ => true | _ => false end.

Definition dict_with (P : list (string * value) -> bool) (v : value) : bool :=
  match v with VDict d => P d | _ => false end.

Definition is_dict : value -> bool := dict_with (fun _ => true).

Definition list_of (P : value -> bool) (v : value) : bool :=
  match v with VList l => forallb P l | _ => false end.

Definition chain_shape : value -> bool :=
  dict_with (fun c =>
    absent_or is_number "hashrate_rt" c &&
    absent_or is_number "hashrate_percentage" c &&
    absent_or is_dict "chip_statuses" c).

Definition cooling_shape : value -> bool :=
  dict_with (fun c =>
    absent_or (list_of is_dict) "fans" c &&
    absent_or (dict_with (absent_or is_dict "mode")) "settings" c).

Definition miner_shape : value -> bool :=
  dict_with (fun m =>
    absent_or (dict_with (absent_or is_str "miner_state")) "miner_status" m &&
    absent_or is_number "average_hashrate" m &&
    absent_or is_number "instant_hashrate" m &&
    absent_or is_number "hr_nominal" m &&
    absent_or is_number "hr_realtime" m &&
    absent_or is_number "power_efficiency" m &&
    absent_or is_dict "pcb_temp" m &&
    absent_or is_dict "chip_temp" m &&
    absent_or is_number "devfee_percent" m &&
    absent_or is_number "devfee" m &&
    absent_or (list_of is_dict) "pools" m &&
    absent_or cooling_shape "cooling" m &&
    absent_or (list_of chain_shape) "chains" m).

(** The members of the list under [key], none when the key is absent. *)
Definition members (key : string) (d : list (string * value)) : list value :=
  match dict_lookup key d with
  | Some (VList l) => l
  | _ => []
  end.

(** The fans of the document: the members of [cooling.fans]. *)
Definition fans_of (m : list (string * value)) : list value :=
  match dict_lookup "cooling" m with
  | Some (VDict c) => members "fans" c
  | _ => []
  end.

(** The number of lines of a complete report: 28 lines whatever the
    document, 3 per pool, 1 per fan, 5 per chain. *)
Definition report_length (m : list (string * value)) : nat :=
  28 + 3 * length (members "pools" m) + length (fans_of m)
  + 5 * length (members "chains" m).

(** A statement that prints [n] lines, which open the sections [ms], and
    ends normally. *)
Definition runs (n : nat) (ms : list nat) (m : io unit) : Prop :=
  snd m = Ok tt /\ length (fst m) = n /\ sections_of (fst m) = ms.

(** The text an f-string evaluates to, from the texts of its parts. *)
Definition cat (parts : list string) : string :=
  fold_right String.append EmptyString parts.

(** The headings of the pools and hash-chains sections for [n] entries. *)
Definition pools_heading (n : nat) : string :=
  nl +:+ "🏊 POOLS (" +:+ pretty (Z.of_nat n) +:+ "):".

Definition chains_heading (n : nat) : string :=
  nl +:+ "⛓️  HASH CHAINS (" +:+ pretty (Z.of_nat n) +:+ "):".

Definition cooling_heading : string := nl +:+ "🌀 COOLING:".

(** The title line for a timestamp. *)
Definition title (now : string) : string := "MINER STATISTICS - " +:+ now.

(** *** The entries of the pools section, as the report describes them *)

Section Entries.
Variable rt : runtime.

(** What a field prints: the value under [key], [default] for an absent
    key. *)
Definition shown (key : string) (default : value) (d : list (string * value)) : string :=
  str_of rt match dict_lookup key d with
            | Some v => v
            | None => default
            end.

(** A pool is active when its [status] is the string "active". *)
Definition is_active (p : list (string * value)) : bool :=
  match dict_lookup "status" p with
  | Some (VStr s) => String.eqb s "active"
  | _ => false
  end.

(** The three lines of a pool: the indicator (filled for an active pool,
    hollow otherwise) with [[id] url], then status and diff, then the
    counts. *)
Definition pool_entry (p : list (string * value)) : list string :=
  [ "  " +:+ (if is_active p then "✓" else "○") +:+ " [" +:+ shown "id" VNone p
         +:+ "] " +:+ shown "url" (VStr "N/A") p;
    "     Status: " +:+ shown "status" (VStr "N/A") p
         +:+ " | Diff: " +:+ shown "diff" (VStr "N/A") p;
    "     Accepted: " +:+ shown "accepted" (VInt 0) p
         +:+ " | Rejected: " +:+ shown "rejected" (VInt 0) p
         +:+ " | Stale: " +:+ shown "stale" (VInt 0) p ].

End Entries.

(** The example documents of the specification. *)
Definition empty_miner_doc : list (string * value) := [("miner", VDict [])].

Definition mining_doc : list (string * value) :=
  [("miner", VDict [("miner_status", VDict [("miner_state", VStr "mining")])])].

Definition one_pool : list (string * value) :=
  [("id", VInt 1); ("status", VStr "active");
   ("url", VStr "stratum+tcp://pool.example:3333"); ("accepted", VInt 10)].

Definition one_pool_doc : list (string * value) :=
  [("miner", VDict [("pools", VList [VDict one_pool])])].


(** *** The keys the renderer reads, with what stands for an absent key

    One table per dict the renderer reads from: the [miner] dict, its nested
    objects (by their path from [miner]), the entries of the three
    sequences, and the [chip_statuses] of a chain. *)
Definition miner_defaults : list (string * value) :=
  [ ("miner_type", VStr "N/A"); ("miner_status", VDict []);
    ("average_hashrate", VInt 0); ("instant_hashrate", VInt 0);
    ("hr_nominal", VInt 0); ("hr_realtime", VInt 0);
    ("power_consumption", VInt 0); ("power_efficiency", VInt 0);
    ("pcb_temp", VDict []); ("chip_temp", VDict []);
    ("hw_errors", VInt 0); ("hw_errors_percent", VInt 0); ("hr_error", VInt 0);
    ("devfee_percent", VInt 0); ("devfee", VInt 0);
    ("pools", VList []); ("cooling", VDict []); ("chains", VList []) ].

Definition nested_defaults : list (list string * list (string * value)) :=
  [ (["miner_status"], [("miner_state", VStr "N/A")]);
    (["pcb_temp"], [("min", VInt 0); ("max", VInt 0)]);
    (["chip_temp"], [("min", VInt 0); ("max", VInt 0)]);
    (["cooling"], [("fans", VList []); ("fan_duty", VInt 0); ("settings", VDict [])]);
    (["cooling"; "settings"], [("mode", VDict [])]);
    (["cooling"; "settings"; "mode"], [("name", VStr "N/A")]) ].

Definition pool_defaults : list (string * value) :=
  [ ("id", VNone); ("url", VStr "N/A"); ("status", VStr "N/A"); ("diff", VStr "N/A");
    ("accepted", VInt 0); ("rejected", VInt 0); ("stale", VInt 0) ].

Definition fan_defaults : list (string * value) :=
  [ ("id", VNone); ("rpm", VInt 0); ("status", VStr "N/A") ].

Definition chain_defaults : list (string * value) :=
  [ ("id", VNone); ("frequency", VInt 0); ("voltage", VInt 0);
    ("hashrate_rt", VInt 0); ("hashrate_percentage", VInt 0);
    ("power_consumption", VInt 0); ("chip_statuses", VDict []) ].

Definition chip_status_defaults : list (string * value) :=
  [ ("grey", VInt 0); ("orange", VInt 0); ("red", VInt 0) ].

(** The dict [inner] under the keys of [path], one inside the other; each
    dict on the way has the other keys of its entry in [siblings]. *)
Fixpoint nested (path : list string) (siblings : list (list (string * value)))
    (inner : list (string * value)) : value :=
  match path with
  | [] => VDict inner
  | key :: rest => VDict ((key, nested rest (tl siblings) inner) :: hd [] siblings)
  end.

(** The dict [outer] with [inner] bound at [path]. *)
Definition with_object (path : list string) (siblings : list (list (string * value)))
    (inner outer : list (string * value)) : list (string * value) :=
  match path with
  | [] => inner
  | key :: rest => (key, nested rest siblings inner) :: outer
  end.

(** The report of [{"miner": {}}], where every key is absent. *)
Definition default_report (now : string) : list string :=
  [ str_mul "=" 60; title now; str_mul "=" 60;
    nl +:+ "🔧 Miner Type: N/A"; "📊 Status: N/A";
    nl +:+ "⚡ HASHRATE:";
    "  • Average:  0.00 TH/s"; "  • Instant:  0.00 TH/s";
    "  • Nominal:  0.00 TH/s"; "  • Realtime: 0.00 GH/s";
    nl +:+ "⚡ POWER:"; "  • Consumption: 0 W"; "  • Efficiency:  0.00 W/TH";
    nl +:+ "🌡️  TEMPERATURE:"; "  • PCB:  0°C - 0°C"; "  • Chip: 0°C - 0°C";
    nl +:+ "❌ ERRORS:"; "  • Hardware Errors: 0 (0%)"; "  • Hashrate Error:  0";
    nl +:+ "💰 DEV FEE:"; "  • Percentage: 0.000%"; "  • Value:      0.00";
    nl +:+ "🏊 POOLS (0):";
    nl +:+ "🌀 COOLING:"; "  • Fan Duty: 0%"; "  • Mode: N/A";
    nl +:+ "⛓️  HASH CHAINS (0):";
    nl +:+ str_mul "=" 60 ].

(** A document with one pool, two fans and one chain, and a timestamp, to
    evaluate the renderer on. *)
Definition busy_miner : list (string * value) :=
  [ ("miner_type", VStr "Antminer S19");
    ("miner_status", VDict [("miner_state", VStr "mining")]);
    ("average_hashrate", VFloat (S754_finite false 6715477609244099 (-46)));
    ("power_consumption", VInt 3250);
    ("pools", VList [VDict one_pool]);
    ("cooling",
     VDict [("fan_duty", VInt 80);
            ("fans", VList [VDict [("id", VInt 0); ("rpm", VInt 4200); ("status", VStr "ok")];
                            VDict []])]);
    ("chains", VList [VDict [("id", VInt 1); ("hashrate_rt", VInt 31)]]) ].

Definition busy_doc : list (string * value) := [("miner", VDict busy_miner)].

Definition sample_now : string := "2024-05-01 12:00:00".

(** *** The documents on which the renderer ends normally

    As the expected shape, but for the three sequences: a [for] loop takes
    whatever can be iterated, so an empty dict or an empty string passes for
    an empty sequence. *)
Definition members_ok (P : value -> bool) (v : value) : bool :=
  match iter v with
  | Ok l => forallb P l
  | Raise _ => false
  end.

Definition cooling_renderable : value -> bool :=
  dict_with (fun c =>
    absent_or (members_ok is_dict) "fans" c &&
    absent_or (dict_with (absent_or is_dict "mode")) "settings" c).

Definition renderable : value -> bool :=
  dict_with (fun m =>
    absent_or (dict_with (absent_or is_str "miner_state")) "miner_status" m &&
    absent_or is_number "average_hashrate" m &&
    absent_or is_number "instant_hashrate" m &&
    absent_or is_number "hr_nominal" m &&
    absent_or is_number "hr_realtime" m &&
    absent_or is_number "power_efficiency" m &&
    absent_or is_dict "pcb_temp" m &&
    absent_or is_dict "chip_temp" m &&
    absent_or is_number "devfee_percent" m &&
    absent_or is_number "devfee" m &&
    absent_or (members_ok is_dict) "pools" m &&
    absent_or cooling_renderable "cooling" m &&
    absent_or (members_ok chain_shape) "chains" m).

(** The sections an output opens are those of [ms], in their order: all of
    them after a normal end, the first ones after an exception. *)
Definition in_order (ms : list nat) (m : io unit) : Prop :=
  match snd m with
  | Ok _ => sections_of (fst m) = ms
  | Raise _ => sections_of (fst m) `prefix_of` ms
  end.

(** *** The entries of the cooling and hash-chains sections *)

Section MoreEntries.
Variable rt : runtime.

(** What a field [{d.get(key, 0):.pf}] prints when the value is a number. *)
Definition shown_fixed (p : nat) (key : string) (d : list (string * value)) : string :=
  match format_f p match dict_lookup key d with
                   | Some v => v
                   | None => VInt 0
                   end with
  | Ok s => s
  | Raise _ => EmptyString
  end.

(** The line of a fan. *)
Definition fan_line (f : list (string * value)) : string :=
  "  • Fan " +:+ shown rt "id" VNone f +:+ ": " +:+ shown rt "rpm" (VInt 0) f
  +:+ " RPM (" +:+ shown rt "status" (VStr "N/A") f +:+ ")".

(** The chip statuses of a chain, an empty dict when absent. *)
Definition chip_statuses_of (c : list (string * value)) : list (string * value) :=
  match dict_lookup "chip_statuses" c with
  | Some (VDict s) => s
  | _ => []
  end.

(** The five lines of a chain. *)
Definition chain_entry (c : list (string * value)) : list string :=
  [ "  • Chain " +:+ shown rt "id" VNone c +:+ ":";
    "     Frequency: " +:+ shown rt "frequency" (VInt 0) c
         +:+ " MHz | Voltage: " +:+ shown rt "voltage" (VInt 0) c +:+ " mV";
    "     Hashrate: " +:+ shown_fixed 2 "hashrate_rt" c
         +:+ " GH/s (" +:+ shown_fixed 2 "hashrate_percentage" c +:+ "%)";
    "     Power: " +:+ shown rt "power_consumption" (VInt 0) c +:+ " W";
    "     Chips: Grey=" +:+ shown rt "grey" (VInt 0) (chip_statuses_of c)
         +:+ ", Orange=" +:+ shown rt "orange" (VInt 0) (chip_statuses_of c)
         +:+ ", Red=" +:+ shown rt "red" (VInt 0) (chip_statuses_of c) ].

End MoreEntries.

(** A document whose average hashrate is [null]. *)
Definition null_hashrate_doc : list (string * value) :=
  [("miner", VDict [("average_hashrate", VNone)])].

(** The keys read by the sections before the pools hold what the renderer
    uses them as. *)
Definition scalar_shape : value -> bool :=
  dict_with (fun m =>
    absent_or (dict_with (absent_or is_str "miner_state")) "miner_status" m &&
    absent_or is_number "average_hashrate" m &&
    absent_or is_number "instant_hashrate" m &&
    absent_or is_number "hr_nominal" m &&
    absent_or is_number "hr_realtime" m &&
    absent_or is_number "power_efficiency" m &&
    absent_or is_dict "pcb_temp" m &&
    absent_or is_dict "chip_temp" m &&
    absent_or is_number "devfee_percent" m &&
    absent_or is_number "devfee" m).

(** The banner that opens every report. *)
Definition banner (now : string) : list string :=
  [str_mul "=" 60; title now; str_mul "=" 60].

(** A document whose second pool is a string. *)
Definition bad_pool_miner : list (string * value) :=
  [("pools", VList (map VDict [one_pool] ++ VStr "stratum+tcp://b.example:3333" :: []))].

(** *** The lines the renderer reaches

    A statement that prints [n] lines when it ends normally, and fewer or as
    many when an exception ends it. *)
Definition paced (n : nat) (m : io unit) : Prop :=
  (length (fst m) <= n)%nat /\ (snd m = Ok tt -> length (fst m) = n).



(** The string the status line shows upper-cased: the one at
    [miner.miner_status.miner_state], "N/A" when [miner_status] or
    [miner_state] is absent; none when [miner] or [miner_status] is not a
    dict or [miner_state] is not a string. *)
Definition state_text (miner : value) : option string :=
  match miner with
  | VDict m =>
      match dict_lookup "miner_status" m with
      | None => Some "N/A"%string
      | Some (VDict st) =>
          match dict_lookup "miner_state" st with
          | None => Some "N/A"%string
          | Some (VStr s) => Some s
          | Some _ => None
          end
      | Some _ => None
      end
  | _ => None
  end.



(** Documents in which a value is not what the renderer uses it as: a
    [miner_status] that is [null], an average hashrate that is a string, a
    [cooling.settings] that is [null]; and a document with a named cooling
    mode. *)
Definition null_status_doc : list (string * value) :=
  [("miner", VDict [("miner_status", VNone)])].




End Report.

(** ** The client: [MinerAPI.__init__], [check_auth] and [get_summary] *)

Module Http.
Import Py.

(** The attributes [__init__] sets.  [api_key] is an [Optional[str]]; the
    headers are a dict from header names to values. *)
Record MinerAPI : Type := {
  base_url : string;
  api_key : option string;
  headers : gmap string string
}.

(** Truth value of an [Optional[str]]: [None] and the empty string are
    false. *)
Definition truthy_opt (s : option string) : bool :=
  match s with
  | Some t => negb (String.eqb t EmptyString)
  | None => false
  end.

(** [str(s)], as a replacement field of an f-string prints it. *)
Definition str_opt (s : option string) : string :=
  match s with
  | Some t => t
  | None => "None"
  end.

(** [x or y] *)
Definition or_else (x y : option string) : option string :=
  if truthy_opt x then x else y.

(** [MinerAPI.__init__] (lines 8-17); [environ] is [os.environ]. *)
Definition init (base_url : string) (api_key : option string)
    (environ : gmap string string) : MinerAPI :=
  let key := or_else api_key (environ !! "MINER_API_KEY") in
  let headers : gmap string string := {[ "accept" := "application/json" ]} in
  let headers :=
    if truthy_opt key then <[ "Authorization" := "Bearer " +:+ str_opt key ]> headers
    else headers in
  {| base_url := base_url; api_key := key; headers := headers |}.

(** An exception as the [except] clause sees it: whether it is an instance of
    [requests.exceptions.RequestException], and its text. *)
Record raised : Type := {
  is_request_exception : bool;
  message : string
}.

(** What the program reads of a [requests.Response]: the status line, the
    final URL, and what [response.json()] gives, a decoded value or the
    exception the decoder raises. *)
Record response : Type := {
  status_code : Z;
  reason : string;
  url : string;
  json : raised + value
}.

Record request : Type := {
  req_url : string;
  req_headers : gmap string string;
  req_timeout : Z
}.

(** [requests.get]: it raises (connection errors and timeouts are
    [RequestException]s) or returns a response. *)
Definition transport : Type := request -> raised + response.

(** [Response.raise_for_status()] of the requests library: an [HTTPError], a
    [RequestException], for the status codes 400 to 599 and nothing
    otherwise. *)
Definition raise_for_status (r : response) : option raised :=
  let error kind :=
    {| is_request_exception := true;
       message := pretty (status_code r) +:+ kind +:+ reason r +:+ " for url: " +:+ url r |} in
  if ((400 <=? status_code r) && (status_code r <? 500))%Z then Some (error " Client Error: ")
  else if ((500 <=? status_code r) && (status_code r <? 600))%Z then Some (error " Server Error: ")
  else None.

(** The request of lines 25-29 and 39-43: [base_url] followed by the path,
    the headers of the object, a timeout of 10 seconds. *)
Definition request_of (api : MinerAPI) (path : string) : request :=
  {| req_url := base_url api +:+ path;
     req_headers := headers api;
     req_timeout := 10 |}.

(** The body of the [try] (lines 25-31 and 39-45): the request, the status
    check, the decoding. *)
Definition attempt (send : transport) (api : MinerAPI) (path : string) : raised + value :=
  match send (request_of api path) with
  | inl e => inl e
  | inr r =>
      match raise_for_status r with
      | Some e => inl e
      | None => json r
      end
  end.

(** How a call ends: it returns a value or lets an exception through. *)
Inductive outcome : Type :=
| Returns (v : value)
| Propagates (e : raised).

(** [except requests.exceptions.RequestException as e: print(...); return {}]
    (lines 32-34 and 46-48); any other exception propagates. *)
Definition except_request_exception (label : string) (r : raised + value)
    : list string * outcome :=
  match r with
  | inr v => ([], Returns v)
  | inl e =>
      if is_request_exception e then ([label +:+ message e], Returns (VDict []))
      else ([], Propagates e)
  end.

(** [check_auth] (lines 22-34) *)
Definition check_auth (send : transport) (api : MinerAPI) : list string * outcome :=
  except_request_exception "Error checking auth: " (attempt send api "/api/v1/auth-check").

(** [get_summary] (lines 36-48) *)
Definition get_summary (send : transport) (api : MinerAPI) : list string * outcome :=
  except_request_exception "Error getting summary: " (attempt send api "/api/v1/summary").

(** The two calls, each with the path it requests. *)
Definition calls : list ((transport -> MinerAPI -> list string * outcome) * string) :=
  [ (check_auth, "/api/v1/auth-check"); (get_summary, "/api/v1/summary") ].

(** A server that answers every request with [300 Multiple Choices] and a
    JSON body. *)
Definition redirecting_server : transport :=
  fun req =>
    inr {| status_code := 300;
           reason := "Multiple Choices";
           url := req_url req;
           json := inr (VDict [("miner", VDict [])]) |}.

(** The default of the [base_url] parameter of [__init__] (line 8). *)
Definition default_base_url : string := "http://172.16.58.104".

(** A server that answers [401 Unauthorized] to the authentication check
    and a JSON document to every other request. *)
Definition unauthorized_server (summary : value) : transport :=
  fun req =>
    if String.eqb (req_url req) (default_base_url +:+ "/api/v1/auth-check")
    then inr {| status_code := 401; reason := "Unauthorized"; url := req_url req;
                json := inr (VDict []) |}
    else inr {| status_code := 200; reason := "OK"; url := req_url req;
                json := inr summary |}.

(** A transport whose every request times out. *)
Definition unreachable : transport :=
  fun _ => inl {| is_request_exception := true; message := "timed out" |}.

(** A server that answers every request with [200 OK] and the same JSON
    document. *)
Definition serving (document : value) : transport :=
  fun req =>
    inr {| status_code := 200; reason := "OK"; url := req_url req; json := inr document |}.

(** A transport whose every request is interrupted from the keyboard:
    [KeyboardInterrupt] is not a [RequestException]. *)
Definition interrupted : transport :=
  fun _ => inl {| is_request_exception := false; message := "KeyboardInterrupt" |}.

End Http.

(** ** The script: [main] *)

Module Main.
Import Py Report Http.

(** What [main] meets outside the program: [os.environ] as line 10 reads it,
    the one place where the program looks at its environment (what the
    environment of the process decides besides, the time zone of the clock
    or the proxies of the transport, is part of the fields that follow); the
    server behind [requests.get]; the two readings of the clock (formatted
    with ['%Y-%m-%d %H:%M:%S'] by the renderer, line 59, and with
    ['%Y%m%d_%H%M%S'] for the file name, line 155); the serializer
    [json.dumps(v, indent=2)], which [json.dump(v, f, indent=2)] writes to
    the file; and whether [open(filename, 'w')] succeeds. *)
Record host : Type := {
  environ : gmap string string;
  send : transport;
  report_stamp : string;
  file_stamp : string;
  dumps : value -> string;
  writable : string -> bool
}.

(** How a run of [main] ends: it returns, or an exception leaves it: one
    that a call of the client lets through, one of the renderer, or the
    [OSError] of [open]. *)
Inductive ending : Type :=
| Finished
| Uncaught (e : raised)
| RenderError (e : exn)
| OpenError (filename : string).

(** A run: what was printed, one entry per [print], the files written, with
    their contents, and the ending. *)
Record run : Type := {
  printed : list string;
  files : list (string * string);
  ended : ending
}.

Section Script.
Variable rt : runtime.

(** The key of line 129. *)
Definition placeholder_key : string := "your_api_key_here".

(** Line 130: [MinerAPI(api_key=api_key)], with the default [base_url]. *)
Definition client (h : host) : MinerAPI :=
  init default_base_url (Some placeholder_key) (environ h).

(** Line 156 *)
Definition filename (h : host) : string :=
  "miner_stats_" +:+ file_stamp h +:+ ".json".

(** Line 159 *)
Definition saved_line (h : host) : string :=
  nl +:+ "💾 Data saved to: " +:+ filename h.

(** Lines 155-159: the file is written, then the name is printed. *)
Definition save (h : host) (out : list string) (summary_data : value) : run :=
  if writable h (filename h)
  then {| printed := out ++ [saved_line h];
          files := [(filename h, dumps h summary_data)];
          ended := Finished |}
  else {| printed := out; files := []; ended := OpenError (filename h) |}.

(** Lines 151-161 *)
Definition show (h : host) (out : list string) (summary_data : value) : run :=
  if truthy summary_data then
    match parse_miner_stats rt (report_stamp h) summary_data with
    | (lines, Ok _) => save h (out ++ lines) summary_data
    | (lines, Raise e) => {| printed := out ++ lines; files := []; ended := RenderError e |}
    end
  else {| printed := out ++ ["Failed to retrieve miner data"]; files := []; ended := Finished |}.

(** [main()] (lines 126-161) *)
Definition main (h : host) : run :=
  let api := client h in
  let out := ["Checking authentication..."] in
  match check_auth (send h) api with
  | (lines, Propagates e) =>
      {| printed := out ++ lines; files := []; ended := Uncaught e |}
  | (lines, Returns auth_status) =>
      let out := out ++ lines ++ ["Auth Status: " +:+ dumps h auth_status +:+ nl;
                                  "Fetching miner summary..."] in
      match get_summary (send h) api with
      | (lines, Propagates e) =>
          {| printed := out ++ lines; files := []; ended := Uncaught e |}
      | (lines, Returns summary_data) => show h (out ++ lines) summary_data
      end
  end.

(** The lines printed before the summary is looked at, when both calls
    return. *)
Definition preamble (h : host) (auth_status : value) : list string :=
  (["Checking authentication..."] ++ fst (check_auth (send h) (client h))
   ++ ["Auth Status: " +:+ dumps h auth_status +:+ nl; "Fetching miner summary..."])
  ++ fst (get_summary (send h) (client h)).

End Script.

(** The host with another server. *)
Definition with_send (h : host) (s : transport) : host :=
  {| environ := environ h; send := s; report_stamp := report_stamp h;
     file_stamp := file_stamp h; dumps := dumps h; writable := writable h |}.

(** A host to evaluate examples with: it serializes by [repr] and lets every
    file be written. *)
Definition sample_host (s : transport) : host :=
  {| environ := {[ "MINER_API_KEY" := "secret" ]};
     send := s;
     report_stamp := sample_now;
     file_stamp := "20240501_120000";
     dumps := repr sample_runtime;
     writable := fun _ => true |}.

End Main.

(** ** Properties of the renderer *)

Module ReportFacts.
Import Py Report.
#[local] Open Scope py_scope.

Create HintDb pieces.

Section Facts.
Variable rt : runtime.

(** *** Sequencing *)

Lemma bind_eval_ok {A B : Type} (v : A) (k : A -> io B) :
  bind (eval (Ok v)) k = k v.
Proof. unfold bind, eval. simpl. destruct (k v). reflexivity. Qed.

Lemma bind_print_ok {B : Type} (s : string) (k : unit -> io B) :
  bind (print (Ok s)) k = (s :: fst (k tt), snd (k tt)).
Proof. reflexivity. Qed.

Lemma fst_bind_ok (a : io unit) (k : unit -> io unit) :
  snd a = Ok tt -> fst (bind a k) = fst a ++ fst (k tt).
Proof. intros H. unfold bind. rewrite H. reflexivity. Qed.

Lemma fst_bind_prefix (a : io unit) (k : unit -> io unit) :
  exists rest, fst (bind a k) = fst a ++ rest.
Proof.
  unfold bind. destruct (snd a) as [[] | e].
  - eexists. reflexivity.
  - exists []. cbn [fst]. rewrite app_nil_r. reflexivity.
Qed.

Lemma runs_bind n1 n2 ms1 ms2 (a : io unit) (k : unit -> io unit) :
  runs n1 ms1 a -> runs n2 ms2 (k tt) -> runs (n1 + n2) (ms1 ++ ms2) (bind a k).
Proof.
  intros (Ha & Hn & Hm) (Hk & Hn' & Hm'). unfold runs, bind. rewrite Ha. cbn [fst snd].
  unfold sections_of in *. rewrite length_app, omap_app.
  repeat split; congruence.
Qed.

Lemma runs_seq n1 n2 ms1 ms2 n ms (a : io unit) (k : unit -> io unit) :
  runs n1 ms1 a -> runs n2 ms2 (k tt) -> n = (n1 + n2)%nat -> ms = ms1 ++ ms2 ->
  runs n ms (bind a k).
Proof. intros Ha Hk -> ->. apply runs_bind; assumption. Qed.

Lemma runs_length n n' ms (m : io unit) : runs n ms m -> n = n' -> runs n' ms m.
Proof. intros H <-. exact H. Qed.

Lemma runs_eval {A : Type} (e : result A) (v : A) (k : A -> io unit) n ms :
  e = Ok v -> runs n ms (k v) -> runs n ms (bind (eval e) k).
Proof. intros -> H. rewrite bind_eval_ok. exact H. Qed.

Lemma runs_for_each {A : Type} (body : A -> io unit) n (l : list A) :
  Forall (fun x => runs n [] (body x)) l -> runs (length l * n) [] (for_each l body).
Proof.
  induction 1 as [| x l Hx _ IH]; cbn [for_each length Nat.mul].
  - repeat split.
  - apply (runs_bind n (length l * n) [] []); assumption.
Qed.

Lemma runs_loop P body n (l : list value) :
  (forall x, P x = true -> runs n [] (body x)) ->
  forallb P l = true -> runs (length l * n) [] (for_each l body).
Proof.
  intros Hbody Hl. apply runs_for_each. apply Forall_forall. intros x Hx.
  apply Hbody. rewrite forallb_forall in Hl. apply Hl.
  apply list_elem_of_In. exact Hx.
Qed.

(** Where a line of a sequence comes from. *)
Lemma lookup_here (a : io unit) (k : unit -> io unit) i x :
  fst a !! i = Some x -> fst (bind a k) !! i = Some x.
Proof.
  intros H. destruct (fst_bind_prefix a k) as [rest ->].
  apply lookup_app_l_Some, H.
Qed.

Lemma lookup_skip n ms (a : io unit) (k : unit -> io unit) i :
  runs n ms a -> (n <= i)%nat -> fst (bind a k) !! i = fst (k tt) !! (i - n)%nat.
Proof.
  intros (Ha & Hn & _) Hi. rewrite fst_bind_ok by exact Ha.
  rewrite lookup_app_r by lia. rewrite Hn. reflexivity.
Qed.

Lemma drop_skip n ms (a : io unit) (k : unit -> io unit) i :
  runs n ms a -> (n <= i)%nat -> drop i (fst (bind a k)) = drop (i - n) (fst (k tt)).
Proof.
  intros (Ha & Hn & _) Hi. rewrite fst_bind_ok by exact Ha.
  rewrite drop_app. rewrite Hn. rewrite drop_ge by lia. reflexivity.
Qed.

Lemma take_here n ms (a : io unit) (k : unit -> io unit) :
  runs n ms a -> take n (fst (bind a k)) = fst a.
Proof.
  intros (Ha & Hn & _). rewrite fst_bind_ok by exact Ha.
  apply take_app_length'. symmetry. exact Hn.
Qed.

(** *** f-strings *)

Lemma fstring_cat ps strs :
  Forall2 (fun p s => piece_str rt p = Ok s) ps strs -> fstring rt ps = Ok (cat strs).
Proof.
  induction 1 as [| p s ps strs Hp _ IH]; cbn [fstring cat fold_right]; [reflexivity |].
  rewrite Hp, IH. reflexivity.
Qed.

Lemma pieces_ok ps :
  Forall (piece_ok rt) ps -> exists strs, Forall2 (fun p s => piece_str rt p = Ok s) ps strs.
Proof.
  induction 1 as [| p ps [s Hs] _ [strs IH]].
  - exists []. constructor.
  - exists (s :: strs). constructor; assumption.
Qed.

Lemma runs_printf o h ps strs :
  (forall t, section_marker (h +:+ t) = o) ->
  Forall2 (fun p s => piece_str rt p = Ok s) ps strs ->
  runs 1 (option_list o) (printf rt (Lit h :: ps)).
Proof.
  intros Hh H. unfold printf.
  rewrite (fstring_cat (Lit h :: ps) (h :: strs)) by (constructor; [reflexivity | exact H]).
  repeat split. unfold sections_of. cbn [print fst omap list_omap cat fold_right].
  rewrite Hh. destruct o; reflexivity.
Qed.

Lemma runs_line o h ps :
  (forall t, section_marker (h +:+ t) = o) ->
  Forall (piece_ok rt) ps -> runs 1 (option_list o) (printf rt (Lit h :: ps)).
Proof. intros Hh H. destruct (pieces_ok ps H) as [strs Hs]. eapply runs_printf; eauto. Qed.

Lemma runs_print s : runs 1 (option_list (section_marker s)) (print (Ok s)).
Proof. repeat split. Qed.

Lemma piece_ok_lit s : piece_ok rt (Lit s).
Proof. eexists. reflexivity. Qed.

Lemma piece_ok_field key default d : piece_ok rt (Field (get key default (VDict d))).
Proof. eexists. reflexivity. Qed.

Lemma piece_ok_value v : piece_ok rt (Field (Ok v)).
Proof. eexists. reflexivity. Qed.

Lemma piece_ok_len_list l : piece_ok rt (Field (len (VList l))).
Proof. eexists. reflexivity. Qed.

Lemma format_f_number p v : is_number v = true -> exists s, format_f p v = Ok s.
Proof.
  destruct v; try discriminate; cbn [is_number format_f]; intros H; eauto.
  unfold int_to_float. rewrite H. cbn [rbind]. eauto.
Qed.

Lemma piece_ok_fixed p key d :
  absent_or is_number key d = true -> piece_ok rt (FieldF p (get key (VInt 0) (VDict d))).
Proof.
  unfold absent_or, piece_ok, piece_str, get. destruct (dict_lookup key d) as [v |]; intros H.
  - apply format_f_number, H.
  - apply format_f_number. reflexivity.
Qed.

#[local] Hint Resolve piece_ok_lit piece_ok_field piece_ok_value piece_ok_len_list
  piece_ok_fixed : pieces.

(** *** Lookups *)

Lemma get_dict key default d :
  get key default (VDict d) =
  Ok match dict_lookup key d with Some v => v | None => default end.
Proof. reflexivity. Qed.

Lemma get_absent key default d :
  dict_lookup key d = None -> get key default (VDict d) = Ok default.
Proof. intros H. unfold get. rewrite H. reflexivity. Qed.

Lemma get_present key default d v :
  dict_lookup key d = Some v -> get key default (VDict d) = Ok v.
Proof. intros H. unfold get. rewrite H. reflexivity. Qed.

(** In a document of the expected shape. *)

Lemma get_dict_with P key d :
  absent_or (dict_with P) key d = true -> P [] = true ->
  exists x, get key (VDict []) (VDict d) = Ok (VDict x) /\ P x = true.
Proof.
  unfold absent_or, get. destruct (dict_lookup key d) as [[] |]; try discriminate; eauto.
Qed.

Lemma get_list_of P key d :
  absent_or (list_of P) key d = true ->
  get key (VList []) (VDict d) = Ok (VList (members key d)) /\
  forallb P (members key d) = true.
Proof.
  unfold absent_or, get, members.
  destruct (dict_lookup key d) as [[] |]; try discriminate; auto.
Qed.

Lemma is_dict_inv v : is_dict v = true -> exists d, v = VDict d.
Proof. destruct v; try discriminate. eauto. Qed.

Lemma piece_ok_status m :
  absent_or (dict_with (absent_or is_str "miner_state")) "miner_status" m = true ->
  piece_ok rt (Field (get "miner_status" (VDict []) (VDict m)
                   >>= get "miner_state" (VStr "N/A") >>= upper rt)).
Proof.
  intros H. destruct (get_dict_with _ _ _ H eq_refl) as (s & -> & Hs).
  unfold piece_ok, piece_str, absent_or in *. cbn [rbind get].
  destruct (dict_lookup "miner_state" s) as [[] |]; try discriminate; eexists; reflexivity.
Qed.

Lemma piece_ok_mode c :
  absent_or (dict_with (absent_or is_dict "mode")) "settings" c = true ->
  piece_ok rt (Field (get "settings" (VDict []) (VDict c) >>= get "mode" (VDict [])
                   >>= get "name" (VStr "N/A"))).
Proof.
  intros H. destruct (get_dict_with _ _ _ H eq_refl) as (s & -> & Hs).
  destruct (get_dict_with _ _ _ Hs eq_refl) as (md & Emd & _).
  unfold piece_ok, piece_str. cbn [rbind]. rewrite Emd. eexists. reflexivity.
Qed.

(** *** The sections, one by one *)

Ltac pieces := repeat constructor; auto with pieces.
Ltac last_line := apply (runs_line None); [ intros ?; reflexivity | pieces ].
Ltac line := eapply runs_seq; [ last_line | | reflexivity | reflexivity ].
Ltac heading i :=
  eapply runs_seq;
  [ apply (runs_line (Some i)); [ intros ?; reflexivity | pieces ]
  | | reflexivity | reflexivity ].
Ltac assign := eapply runs_eval; [ reflexivity | ].

Lemma runs_header now : runs 3 [1] (header rt now).
Proof.
  unfold header.
  eapply runs_seq; [ apply runs_print | | reflexivity | reflexivity ].
  heading 1%nat. apply runs_print.
Qed.

Lemma runs_footer : runs 1 [11] footer.
Proof. apply runs_print. Qed.

Lemma runs_basic_info m :
  absent_or (dict_with (absent_or is_str "miner_state")) "miner_status" m = true ->
  runs 2 [2] (basic_info rt (VDict m)).
Proof.
  intros H. unfold basic_info. heading 2%nat.
  apply (runs_line None); [ intros ?; reflexivity | ].
  repeat constructor. apply piece_ok_status, H.
Qed.

Lemma runs_hashrate m :
  absent_or is_number "average_hashrate" m = true ->
  absent_or is_number "instant_hashrate" m = true ->
  absent_or is_number "hr_nominal" m = true ->
  absent_or is_number "hr_realtime" m = true ->
  runs 5 [3] (hashrate rt (VDict m)).
Proof. intros. unfold hashrate. heading 3%nat. do 3 line. last_line. Qed.

Lemma runs_power m :
  absent_or is_number "power_efficiency" m = true -> runs 3 [4] (power rt (VDict m)).
Proof. intros. unfold power. heading 4%nat. line. last_line. Qed.

Lemma runs_temperature m :
  absent_or is_dict "pcb_temp" m = true -> absent_or is_dict "chip_temp" m = true ->
  runs 3 [5] (temperature rt (VDict m)).
Proof.
  intros Hp Hc. unfold temperature.
  destruct (get_dict_with _ _ _ Hp eq_refl) as (pcb & Epcb & _).
  destruct (get_dict_with _ _ _ Hc eq_refl) as (chip & Echip & _).
  eapply runs_eval; [ exact Epcb |]. eapply runs_eval; [ exact Echip |].
  heading 5%nat. line. last_line.
Qed.

Lemma runs_errors m : runs 3 [6] (errors rt (VDict m)).
Proof. unfold errors. heading 6%nat. line. last_line. Qed.

Lemma runs_dev_fee m :
  absent_or is_number "devfee_percent" m = true -> absent_or is_number "devfee" m = true ->
  runs 3 [7] (dev_fee rt (VDict m)).
Proof. intros. unfold dev_fee. heading 7%nat. line. last_line. Qed.

Lemma runs_pool_body p : runs 3 [] (pool_body rt (VDict p)).
Proof. unfold pool_body. assign. do 2 line. last_line. Qed.

Lemma runs_fan_body f : runs 1 [] (fan_body rt (VDict f)).
Proof. unfold fan_body. last_line. Qed.

Lemma runs_chain_body c :
  chain_shape (VDict c) = true -> runs 5 [] (chain_body rt (VDict c)).
Proof.
  cbn [chain_shape dict_with]. intros H.
  apply andb_true_iff in H as [H Hchips]. apply andb_true_iff in H as [Hrt Hpct].
  destruct (get_dict_with _ _ _ Hchips eq_refl) as (chips & Echips & _).
  unfold chain_body. do 4 line. eapply runs_eval; [ exact Echips |]. last_line.
Qed.

Lemma runs_pools m :
  absent_or (list_of is_dict) "pools" m = true ->
  runs (1 + length (members "pools" m) * 3) [8] (pools rt (VDict m)).
Proof.
  intros H. destruct (get_list_of _ _ _ H) as [E Hl].
  unfold pools. eapply runs_eval; [ exact E |]. heading 8%nat. assign.
  apply (runs_loop is_dict); [| exact Hl].
  intros x Hx. destruct (is_dict_inv x Hx) as [p ->]. apply runs_pool_body.
Qed.

Lemma cooling_fans m c :
  get "cooling" (VDict []) (VDict m) = Ok (VDict c) -> fans_of m = members "fans" c.
Proof.
  unfold get, fans_of. destruct (dict_lookup "cooling" m) as [v |].
  - intros [= ->]. reflexivity.
  - intros [= <-]. reflexivity.
Qed.

Lemma runs_cooling m :
  absent_or cooling_shape "cooling" m = true ->
  runs (3 + length (fans_of m)) [9] (cooling rt (VDict m)).
Proof.
  intros H.
  destruct (get_dict_with _ _ _ H eq_refl) as (c & Ec & Hc).
  apply andb_true_iff in Hc as [Hfans Hsettings].
  destruct (get_list_of _ _ _ Hfans) as [Efans Hl].
  rewrite (cooling_fans m c Ec). unfold cooling.
  eapply runs_eval; [ exact Ec |]. eapply runs_eval; [ exact Efans |].
  heading 9%nat. line.
  eapply runs_seq;
    [ apply (runs_line None);
      [ intros ?; reflexivity | repeat constructor; apply piece_ok_mode, Hsettings ]
    | assign; apply (runs_loop is_dict); [| exact Hl];
      intros x Hx; destruct (is_dict_inv x Hx) as [f ->]; apply runs_fan_body
    | rewrite Nat.mul_1_r; reflexivity
    | reflexivity ].
Qed.

Lemma runs_chains m :
  absent_or (list_of chain_shape) "chains" m = true ->
  runs (1 + length (members "chains" m) * 5) [10] (chains rt (VDict m)).
Proof.
  intros H. destruct (get_list_of _ _ _ H) as [E Hl].
  unfold chains. eapply runs_eval; [ exact E |]. heading 10%nat. assign.
  apply (runs_loop chain_shape); [| exact Hl].
  intros x Hx.
  assert (exists c, x = VDict c) as [c ->] by (destruct x; try discriminate; eauto).
  apply runs_chain_body, Hx.
Qed.

(** *** The whole report *)

Lemma miner_shape_fields m :
  miner_shape (VDict m) = true ->
  absent_or (dict_with (absent_or is_str "miner_state")) "miner_status" m = true /\
  (absent_or is_number "average_hashrate" m = true /\
   absent_or is_number "instant_hashrate" m = true /\
   absent_or is_number "hr_nominal" m = true /\
   absent_or is_number "hr_realtime" m = true) /\
  absent_or is_number "power_efficiency" m = true /\
  (absent_or is_dict "pcb_temp" m = true /\ absent_or is_dict "chip_temp" m = true) /\
  (absent_or is_number "devfee_percent" m = true /\ absent_or is_number "devfee" m = true) /\
  absent_or (list_of is_dict) "pools" m = true /\
  absent_or cooling_shape "cooling" m = true /\
  absent_or (list_of chain_shape) "chains" m = true.
Proof.
  cbn [miner_shape dict_with]. intros H.
  repeat (apply andb_true_iff in H; destruct H as [H ?]).
  repeat split; assumption.
Qed.

Lemma runs_report now m :
  miner_shape (VDict m) = true ->
  runs (report_length m) [1; 2; 3; 4; 5; 6; 7; 8; 9; 10; 11] (report rt now (VDict m)).
Proof.
  intros H. apply miner_shape_fields in H.
  destruct H as (Hst & (? & ? & ? & ?) & ? & (? & ?) & (? & ?) & ? & ? & ?).
  unfold report.
  apply (runs_length
           (3 + (2 + (5 + (3 + (3 + (3 + (3 + ((1 + length (members "pools" m) * 3)
            + ((3 + length (fans_of m)) + ((1 + length (members "chains" m) * 5) + 1))))))))))%nat);
    [| unfold report_length; lia ].
  eapply runs_seq; [ apply runs_header | | reflexivity | reflexivity ].
  eapply runs_seq; [ apply runs_basic_info; assumption | | reflexivity | reflexivity ].
  eapply runs_seq; [ apply runs_hashrate; assumption | | reflexivity | reflexivity ].
  eapply runs_seq; [ apply runs_power; assumption | | reflexivity | reflexivity ].
  eapply runs_seq; [ apply runs_temperature; assumption | | reflexivity | reflexivity ].
  eapply runs_seq; [ apply runs_errors | | reflexivity | reflexivity ].
  eapply runs_seq; [ apply runs_dev_fee; assumption | | reflexivity | reflexivity ].
  eapply runs_seq; [ apply runs_pools; assumption | | reflexivity | reflexivity ].
  eapply runs_seq; [ apply runs_cooling; assumption | | reflexivity | reflexivity ].
  eapply runs_seq;
    [ apply runs_chains; assumption | apply runs_footer | reflexivity | reflexivity ].
Qed.

Lemma dict_lookup_some_truthy key d v :
  dict_lookup key d = Some v -> truthy (VDict d) = true.
Proof. destruct d; [discriminate | reflexivity]. Qed.

(** With a [miner] key in the document, the renderer prints the report of
    its value. *)
Lemma parse_with_miner now d miner :
  dict_lookup "miner" d = Some miner ->
  parse_miner_stats rt now (VDict d) = report rt now miner.
Proof.
  intros H. unfold parse_miner_stats, no_miner_data.
  rewrite (dict_lookup_some_truthy _ _ _ H). cbn [negb].
  unfold contains, getitem. rewrite H. cbn [rbind negb].
  rewrite bind_eval_ok. rewrite bind_eval_ok. reflexivity.
Qed.

(** C1.  A document that is absent ([None]) or empty (any false value), or a
    dict without a [miner] key, is rendered as the single line
    "No miner data available", and the renderer ends normally. *)
Theorem no_miner_single_line now data :
  truthy data = false \/ (exists d, data = VDict d /\ dict_lookup "miner" d = None) ->
  parse_miner_stats rt now data = (["No miner data available"], Ok tt).
Proof.
  intros [H | (d & -> & H)]; unfold parse_miner_stats, no_miner_data.
  - rewrite H. reflexivity.
  - unfold contains. rewrite H. destruct (truthy (VDict d)); reflexivity.
Qed.

(** *** Headings and the places of the sections *)

Lemma append_cons c s t : String c s +:+ t = String c (s +:+ t).
Proof. reflexivity. Qed.

Lemma append_nil_r s : s +:+ EmptyString = s.
Proof.
  induction s as [| c s IH]; [reflexivity |]. rewrite append_cons, IH. reflexivity.
Qed.

Lemma append_assoc s t u : (s +:+ t) +:+ u = s +:+ t +:+ u.
Proof.
  induction s as [| c s IH]; [reflexivity |]. rewrite !append_cons, IH. reflexivity.
Qed.

(** The report for another timestamp differs in the title line only. *)
Lemma report_timestamp now now' miner :
  report rt now' miner =
  (<[1%nat := title now']> (fst (report rt now miner)), snd (report rt now miner)).
Proof.
  unfold report. set (k := fun _ : unit => _). unfold header, printf, title.
  cbn [fstring piece_str rbind str_of]. rewrite !append_nil_r.
  rewrite !bind_print_ok. reflexivity.
Qed.

(** The lines from the pools heading on. *)
Lemma report_from_pools now m :
  miner_shape (VDict m) = true ->
  drop 22 (fst (report rt now (VDict m))) =
  fst (pools rt (VDict m) >> cooling rt (VDict m) >> chains rt (VDict m) >> footer).
Proof.
  intros H. apply miner_shape_fields in H.
  destruct H as (Hst & (? & ? & ? & ?) & ? & (? & ?) & (? & ?) & ? & ? & ?).
  unfold report.
  rewrite (drop_skip 3 [1]) by first [ apply runs_header | lia ]. cbn [Nat.sub].
  rewrite (drop_skip 2 [2]) by first [ apply runs_basic_info; assumption | lia ]. cbn [Nat.sub].
  rewrite (drop_skip 5 [3]) by first [ apply runs_hashrate; assumption | lia ]. cbn [Nat.sub].
  rewrite (drop_skip 3 [4]) by first [ apply runs_power; assumption | lia ]. cbn [Nat.sub].
  rewrite (drop_skip 3 [5]) by first [ apply runs_temperature; assumption | lia ]. cbn [Nat.sub].
  rewrite (drop_skip 3 [6]) by first [ apply runs_errors | lia ]. cbn [Nat.sub].
  rewrite (drop_skip 3 [7]) by first [ apply runs_dev_fee; assumption | lia ]. cbn [Nat.sub].
  reflexivity.
Qed.

Lemma report_from_cooling now m :
  miner_shape (VDict m) = true ->
  drop (23 + 3 * length (members "pools" m)) (fst (report rt now (VDict m))) =
  fst (cooling rt (VDict m) >> chains rt (VDict m) >> footer).
Proof.
  intros H. pose proof (report_from_pools now m H) as Hp.
  apply miner_shape_fields in H.
  destruct H as (_ & _ & _ & _ & _ & Hpools & _ & _).
  replace (23 + 3 * length (members "pools" m))%nat
    with (22 + (1 + length (members "pools" m) * 3))%nat by lia.
  rewrite <- drop_drop, Hp.
  rewrite (drop_skip _ [8] _ _ _ (runs_pools m Hpools)) by lia.
  rewrite Nat.sub_diag. reflexivity.
Qed.

Lemma report_from_chains now m :
  miner_shape (VDict m) = true ->
  drop (26 + 3 * length (members "pools" m) + length (fans_of m))
       (fst (report rt now (VDict m))) =
  fst (chains rt (VDict m) >> footer).
Proof.
  intros H. pose proof (report_from_cooling now m H) as Hc.
  apply miner_shape_fields in H.
  destruct H as (_ & _ & _ & _ & _ & _ & Hcooling & _).
  replace (26 + 3 * length (members "pools" m) + length (fans_of m))%nat
    with (23 + 3 * length (members "pools" m) + (3 + length (fans_of m)))%nat by lia.
  rewrite <- drop_drop, Hc.
  rewrite (drop_skip _ [9] _ _ _ (runs_cooling m Hcooling)) by lia.
  rewrite Nat.sub_diag. reflexivity.
Qed.

Lemma report_footer now m :
  miner_shape (VDict m) = true ->
  drop (27 + 3 * length (members "pools" m) + length (fans_of m)
        + 5 * length (members "chains" m))
       (fst (report rt now (VDict m))) = [nl +:+ str_mul "=" 60].
Proof.
  intros H. pose proof (report_from_chains now m H) as Hc.
  apply miner_shape_fields in H.
  destruct H as (_ & _ & _ & _ & _ & _ & _ & Hchains).
  replace (27 + 3 * length (members "pools" m) + length (fans_of m)
           + 5 * length (members "chains" m))%nat
    with (26 + 3 * length (members "pools" m) + length (fans_of m)
          + (1 + length (members "chains" m) * 5))%nat by lia.
  rewrite <- drop_drop, Hc.
  rewrite (drop_skip _ [10] _ _ _ (runs_chains m Hchains)) by lia.
  rewrite Nat.sub_diag. reflexivity.
Qed.

Lemma lookup_of_drop (l : list string) n x :
  drop n l !! 0%nat = Some x -> l !! n = Some x.
Proof. rewrite lookup_drop, Nat.add_0_r. tauto. Qed.

Lemma pools_first_line m :
  absent_or (list_of is_dict) "pools" m = true ->
  fst (pools rt (VDict m)) !! 0%nat = Some (pools_heading (length (members "pools" m))).
Proof.
  intros H. destruct (get_list_of _ _ _ H) as [E _].
  unfold pools. rewrite E, bind_eval_ok. unfold printf.
  cbn [fstring piece_str rbind len str_of repr]. rewrite bind_print_ok. cbn [fst lookup].
  unfold pools_heading. rewrite append_nil_r, !append_assoc. reflexivity.
Qed.

Lemma chains_first_line m :
  absent_or (list_of chain_shape) "chains" m = true ->
  fst (chains rt (VDict m)) !! 0%nat = Some (chains_heading (length (members "chains" m))).
Proof.
  intros H. destruct (get_list_of _ _ _ H) as [E _].
  unfold chains. rewrite E, bind_eval_ok. unfold printf.
  cbn [fstring piece_str rbind len str_of repr]. rewrite bind_print_ok. cbn [fst lookup].
  unfold chains_heading. rewrite append_nil_r, !append_assoc. reflexivity.
Qed.

Lemma cooling_first_line m :
  absent_or cooling_shape "cooling" m = true ->
  fst (cooling rt (VDict m)) !! 0%nat = Some cooling_heading.
Proof.
  intros H. destruct (get_dict_with _ _ _ H eq_refl) as (c & Ec & Hc).
  unfold cooling. rewrite Ec, bind_eval_ok.
  change (get "fans" (VList []) (VDict c)) with (Ok (A := value)
    match dict_lookup "fans" c with Some v => v | None => VList [] end).
  rewrite bind_eval_ok. unfold printf at 1. cbn [fstring piece_str rbind].
  rewrite bind_print_ok. cbn [fst lookup]. rewrite append_nil_r. reflexivity.
Qed.


Lemma pools_heading_line m l :
  dict_lookup "pools" m = Some (VList l) ->
  fst (pools rt (VDict m)) !! 0%nat = Some (pools_heading (length l)).
Proof.
  intros H. unfold pools. rewrite (get_present _ _ _ _ H), bind_eval_ok.
  unfold printf. cbn [fstring piece_str rbind len str_of repr]. rewrite bind_print_ok.
  cbn [fst lookup]. unfold pools_heading. rewrite append_nil_r, !append_assoc. reflexivity.
Qed.

Lemma chains_heading_line m l :
  dict_lookup "chains" m = Some (VList l) ->
  fst (chains rt (VDict m)) !! 0%nat = Some (chains_heading (length l)).
Proof.
  intros H. unfold chains. rewrite (get_present _ _ _ _ H), bind_eval_ok.
  unfold printf. cbn [fstring piece_str rbind len str_of repr]. rewrite bind_print_ok.
  cbn [fst lookup]. unfold chains_heading. rewrite append_nil_r, !append_assoc. reflexivity.
Qed.

Lemma get_no_members key d :
  dict_lookup key d = None \/ dict_lookup key d = Some (VList []) ->
  get key (VList []) (VDict d) = Ok (VList []).
Proof. intros [H | H]; [apply get_absent, H | apply get_present, H]. Qed.

Lemma pools_alone m :
  dict_lookup "pools" m = None \/ dict_lookup "pools" m = Some (VList []) ->
  pools rt (VDict m) = ([pools_heading 0], Ok tt).
Proof.
  intros H. unfold pools. rewrite (get_no_members _ _ H), bind_eval_ok. unfold printf.
  cbn [fstring piece_str rbind len str_of repr iter length]. rewrite bind_print_ok.
  rewrite bind_eval_ok. cbn [for_each ret fst snd].
  unfold pools_heading. rewrite append_nil_r, !append_assoc. reflexivity.
Qed.

Lemma chains_alone m :
  dict_lookup "chains" m = None \/ dict_lookup "chains" m = Some (VList []) ->
  chains rt (VDict m) = ([chains_heading 0], Ok tt).
Proof.
  intros H. unfold chains. rewrite (get_no_members _ _ H), bind_eval_ok. unfold printf.
  cbn [fstring piece_str rbind len str_of repr iter length]. rewrite bind_print_ok.
  rewrite bind_eval_ok. cbn [for_each ret fst snd].
  unfold chains_heading. rewrite append_nil_r, !append_assoc. reflexivity.
Qed.

(** C4, as it holds.  In the report of a document of the expected shape the
    pools heading (line 22) shows the number of pools and the hash-chains
    heading the number of chains, 0 for an absent or empty sequence; the
    cooling heading shows no count.  The headings stand where 3 lines per
    pool, 1 line per fan and 5 lines per chain put them, so an absent or
    empty sequence has no entry line under its heading.  Section by
    section: the first line of the pools (hash-chains) section shows the
    length of the list, whatever the list holds, and for an absent or empty
    list the section is its heading alone. *)
Theorem count_headings now d m :
  dict_lookup "miner" d = Some (VDict m) ->
  miner_shape (VDict m) = true ->
  let out := fst (parse_miner_stats rt now (VDict d)) in
  let p := length (members "pools" m) in
  let f := length (fans_of m) in
  let c := length (members "chains" m) in
  out !! 22%nat = Some (pools_heading p) /\
  out !! (23 + 3 * p)%nat = Some cooling_heading /\
  out !! (26 + 3 * p + f)%nat = Some (chains_heading c) /\
  out !! (27 + 3 * p + f + 5 * c)%nat = Some (nl +:+ str_mul "=" 60) /\
  length out = (28 + 3 * p + f + 5 * c)%nat /\
  (forall m' l, dict_lookup "pools" m' = Some (VList l) ->
                fst (pools rt (VDict m')) !! 0%nat = Some (pools_heading (length l))) /\
  (forall m' l, dict_lookup "chains" m' = Some (VList l) ->
                fst (chains rt (VDict m')) !! 0%nat = Some (chains_heading (length l))) /\
  (forall m', dict_lookup "pools" m' = None \/ dict_lookup "pools" m' = Some (VList []) ->
              pools rt (VDict m') = ([pools_heading 0], Ok tt)) /\
  (forall m', dict_lookup "chains" m' = None \/ dict_lookup "chains" m' = Some (VList []) ->
              chains rt (VDict m') = ([chains_heading 0], Ok tt)).
Proof.
  intros Hd Hm. cbv zeta. rewrite (parse_with_miner now d _ Hd).
  pose proof (miner_shape_fields m Hm) as (_ & _ & _ & _ & _ & Hpools & Hcooling & Hchains).
  split; [| split; [| split; [| split; [| split; [| split; [| split; [| split]]]]]]].
  - apply lookup_of_drop. rewrite (report_from_pools now m Hm).
    apply lookup_here, pools_first_line, Hpools.
  - apply lookup_of_drop. rewrite (report_from_cooling now m Hm).
    apply lookup_here, cooling_first_line, Hcooling.
  - apply lookup_of_drop. rewrite (report_from_chains now m Hm).
    apply lookup_here, chains_first_line, Hchains.
  - apply lookup_of_drop. rewrite (report_footer now m Hm). reflexivity.
  - destruct (runs_report now m Hm) as (_ & Hlen & _). exact Hlen.
  - apply pools_heading_line.
  - apply chains_heading_line.
  - apply pools_alone.
  - apply chains_alone.
Qed.

(** *** Single lines *)

Lemma printf_ok h ps :
  Forall (piece_ok rt) ps -> exists s, printf rt (Lit h :: ps) = ([h +:+ s], Ok tt).
Proof.
  intros H. destruct (pieces_ok ps H) as [strs Hs]. exists (cat strs).
  unfold printf. rewrite (fstring_cat (Lit h :: ps) (h :: strs)); [reflexivity |].
  constructor; [reflexivity | exact Hs].
Qed.



Lemma lookup_last_line h ps s :
  fstring rt (Lit h :: ps) = Ok s ->
  fst (printf rt (Lit h :: ps)) !! 0%nat = Some s.
Proof. intros H. unfold printf. rewrite H. reflexivity. Qed.


(** *** Numbers that are absent *)


(** *** The entries of the pools section *)

Lemma pool_body_entry p : pool_body rt (VDict p) = (pool_entry rt p, Ok tt).
Proof.
  unfold pool_body, pool_entry, printf, shown, is_active.
  cbn [fstring piece_str rbind get str_of].
  rewrite bind_eval_ok, !bind_print_ok. cbn [print fst snd].
  rewrite !append_nil_r.
  destruct (dict_lookup "status" p) as [[] |]; cbn [eq_str]; reflexivity.
Qed.

Lemma for_each_entries (body : value -> io unit) (entry : list (string * value) -> list string) ps :
  (forall p, body (VDict p) = (entry p, Ok tt)) ->
  for_each (map VDict ps) body = (concat (map entry ps), Ok tt).
Proof.
  intros Hbody. induction ps as [| p ps IH]; cbn [map for_each concat]; [reflexivity |].
  unfold bind. rewrite Hbody, IH. reflexivity.
Qed.

Lemma pools_entries m ps :
  dict_lookup "pools" m = Some (VList (map VDict ps)) ->
  pools rt (VDict m) = (pools_heading (length ps) :: concat (map (pool_entry rt) ps), Ok tt).
Proof.
  intros H. unfold pools. rewrite (get_present _ _ _ _ H), bind_eval_ok.
  unfold printf. cbn [fstring piece_str rbind len str_of repr iter].
  rewrite bind_print_ok, bind_eval_ok, length_map.
  rewrite (for_each_entries _ (pool_entry rt)) by apply pool_body_entry.
  cbn [fst snd]. unfold pools_heading. rewrite append_nil_r, !append_assoc. reflexivity.
Qed.

Lemma is_active_iff p :
  is_active p = true <-> dict_lookup "status" p = Some (VStr "active").
Proof.
  unfold is_active. destruct (dict_lookup "status" p) as [[] |]; split; try discriminate.
  - intros H. apply String.eqb_eq in H. subst. reflexivity.
  - intros [= ->]. reflexivity.
Qed.

(** C7.  For a [pools] list of dicts the pools section is its heading, which
    shows the number of pools, followed by the three lines of each pool in
    the order of the list: the indicator, filled exactly when [status] is
    the string "active" and hollow otherwise (also when [status] is absent),
    with [[id] url]; status and diff, "N/A" when absent; the accepted,
    rejected and stale counts, 0 when absent.  In the report of a document
    of the expected shape these are the lines from line 22 on.  For the
    single pool [{"id": 1, "status": "active", "url":
    "stratum+tcp://pool.example:3333", "accepted": 10}] the heading shows 1
    and the entry reads as the last four equations say. *)
Theorem pool_entries_in_order now d m ps :
  dict_lookup "miner" d = Some (VDict m) ->
  dict_lookup "pools" m = Some (VList (map VDict ps)) ->
  pools rt (VDict m) = (pools_heading (length ps) :: concat (map (pool_entry rt) ps), Ok tt) /\
  (miner_shape (VDict m) = true ->
   take (1 + 3 * length ps) (drop 22 (fst (parse_miner_stats rt now (VDict d))))
   = pools_heading (length ps) :: concat (map (pool_entry rt) ps)) /\
  (forall p, is_active p = true <-> dict_lookup "status" p = Some (VStr "active")) /\
  fst (parse_miner_stats rt now (VDict one_pool_doc)) !! 22%nat
  = Some (nl +:+ "🏊 POOLS (1):") /\
  fst (parse_miner_stats rt now (VDict one_pool_doc)) !! 23%nat
  = Some "  ✓ [1] stratum+tcp://pool.example:3333"%string /\
  fst (parse_miner_stats rt now (VDict one_pool_doc)) !! 24%nat
  = Some "     Status: active | Diff: N/A"%string /\
  fst (parse_miner_stats rt now (VDict one_pool_doc)) !! 25%nat
  = Some "     Accepted: 10 | Rejected: 0 | Stale: 0"%string.
Proof.
  intros Hd Hp. split; [apply pools_entries, Hp |].
  split; [| split; [apply is_active_iff | repeat split; vm_compute; reflexivity ]].
  intros Hm. rewrite (parse_with_miner now d _ Hd), (report_from_pools now m Hm).
  pose proof (miner_shape_fields m Hm) as (_ & _ & _ & _ & _ & Hpools & _ & _).
  assert (Hlen : length (members "pools" m) = length ps).
  { unfold members. rewrite Hp. apply length_map. }
  replace (1 + 3 * length ps)%nat with (1 + length (members "pools" m) * 3)%nat by lia.
  rewrite (take_here _ [8] _ _ (runs_pools m Hpools)).
  rewrite (pools_entries m ps Hp). reflexivity.
Qed.

(** *** The cooling mode *)



(** *** Absent keys and their defaults *)

Lemma dict_lookup_app key d1 d2 :
  dict_lookup key (d1 ++ d2) =
  match dict_lookup key d1 with
  | Some v => Some v
  | None => dict_lookup key d2
  end.
Proof.
  induction d1 as [| [k v] d1 IH]; cbn [dict_lookup app]; [reflexivity |].
  destruct (String.eqb k key); [reflexivity | exact IH].
Qed.

Lemma get_extend_eq key default default' d :
  dict_lookup key d = None ->
  get key default' (VDict (d ++ [(key, default)])) = Ok default.
Proof.
  intros H. unfold get. rewrite dict_lookup_app, H. cbn [dict_lookup].
  rewrite String.eqb_refl. reflexivity.
Qed.

Lemma get_extend_ne key default key' default' d :
  String.eqb key key' = false ->
  get key' default' (VDict (d ++ [(key, default)])) = get key' default' (VDict d).
Proof.
  intros H. unfold get. rewrite dict_lookup_app. cbn [dict_lookup]. rewrite H.
  destruct (dict_lookup key' d); reflexivity.
Qed.

Lemma get_bound key default v d : get key default (VDict ((key, v) :: d)) = Ok v.
Proof. unfold get. cbn [dict_lookup]. rewrite String.eqb_refl. reflexivity. Qed.

Lemma get_other key default key' v d :
  String.eqb key' key = false ->
  get key default (VDict ((key', v) :: d)) = get key default (VDict d).
Proof. intros E. unfold get. cbn [dict_lookup]. rewrite E. reflexivity. Qed.

(** The report reads the [miner] dict through the lookups of
    [miner_defaults] and through nothing else. *)
Lemma report_ext now m1 m2 :
  (forall key default, dict_lookup key miner_defaults = Some default ->
                       get key default m1 = get key default m2) ->
  report rt now m1 = report rt now m2.
Proof.
  intros H.
  unfold report, basic_info, hashrate, power, temperature, errors, dev_fee, pools, cooling,
    chains.
  rewrite (H "miner_type" _ eq_refl), (H "miner_status" _ eq_refl),
    (H "average_hashrate" _ eq_refl), (H "instant_hashrate" _ eq_refl),
    (H "hr_nominal" _ eq_refl), (H "hr_realtime" _ eq_refl),
    (H "power_consumption" _ eq_refl), (H "power_efficiency" _ eq_refl),
    (H "pcb_temp" _ eq_refl), (H "chip_temp" _ eq_refl),
    (H "hw_errors" _ eq_refl), (H "hw_errors_percent" _ eq_refl), (H "hr_error" _ eq_refl),
    (H "devfee_percent" _ eq_refl), (H "devfee" _ eq_refl),
    (H "pools" _ eq_refl), (H "cooling" _ eq_refl), (H "chains" _ eq_refl).
  reflexivity.
Qed.

Lemma miner_default now m key default :
  In (key, default) miner_defaults ->
  dict_lookup key m = None ->
  report rt now (VDict (m ++ [(key, default)])) = report rt now (VDict m).
Proof.
  intros Hin Hm. apply report_ext. intros key' default' Hin'.
  destruct (String.eqb key key') eqn:E.
  - apply String.eqb_eq in E. subst key'.
    assert (default' = default) as ->.
    { cbn [In miner_defaults] in Hin.
      repeat (destruct Hin as [[= <- <-] | Hin]; [cbn in Hin'; congruence |]).
      destruct Hin. }
    rewrite (get_extend_eq _ _ _ _ Hm), (get_absent _ _ _ Hm). reflexivity.
  - apply get_extend_ne, E.
Qed.

Ltac defaults H :=
  repeat first
    [ rewrite get_bound
    | rewrite get_other by reflexivity
    | rewrite (get_extend_eq _ _ _ _ H)
    | rewrite get_extend_ne by reflexivity
    | rewrite (get_absent _ _ _ H)
    | rewrite bind_eval_ok
    | progress cbn beta
    | progress cbn [rbind eq_str]
    | rewrite get_dict ];
  reflexivity.

Lemma report_by_section now m1 m2 :
  basic_info rt m1 = basic_info rt m2 -> hashrate rt m1 = hashrate rt m2 ->
  power rt m1 = power rt m2 -> temperature rt m1 = temperature rt m2 ->
  errors rt m1 = errors rt m2 -> dev_fee rt m1 = dev_fee rt m2 ->
  pools rt m1 = pools rt m2 -> cooling rt m1 = cooling rt m2 ->
  chains rt m1 = chains rt m2 ->
  report rt now m1 = report rt now m2.
Proof. unfold report. intros -> -> -> -> -> -> -> -> ->. reflexivity. Qed.

Lemma pool_default p key default :
  In (key, default) pool_defaults ->
  dict_lookup key p = None ->
  pool_body rt (VDict (p ++ [(key, default)])) = pool_body rt (VDict p).
Proof.
  intros Hin Hp. cbn [In pool_defaults] in Hin.
  repeat (destruct Hin as [[= <- <-] | Hin]; [unfold pool_body; defaults Hp |]).
  destruct Hin.
Qed.

Lemma fan_default f key default :
  In (key, default) fan_defaults ->
  dict_lookup key f = None ->
  fan_body rt (VDict (f ++ [(key, default)])) = fan_body rt (VDict f).
Proof.
  intros Hin Hf. cbn [In fan_defaults] in Hin.
  repeat (destruct Hin as [[= <- <-] | Hin]; [unfold fan_body; defaults Hf |]).
  destruct Hin.
Qed.

Lemma chain_default c key default :
  In (key, default) chain_defaults ->
  dict_lookup key c = None ->
  chain_body rt (VDict (c ++ [(key, default)])) = chain_body rt (VDict c).
Proof.
  intros Hin Hc. cbn [In chain_defaults] in Hin.
  repeat (destruct Hin as [[= <- <-] | Hin]; [unfold chain_body; defaults Hc |]).
  destruct Hin.
Qed.

Lemma chip_status_default c o key default :
  In (key, default) chip_status_defaults ->
  dict_lookup key o = None ->
  chain_body rt (VDict (("chip_statuses", VDict (o ++ [(key, default)])) :: c))
  = chain_body rt (VDict (("chip_statuses", VDict o) :: c)).
Proof.
  intros Hin Ho. cbn [In chip_status_defaults] in Hin.
  repeat (destruct Hin as [[= <- <-] | Hin]; [unfold chain_body; defaults Ho |]).
  destruct Hin.
Qed.

Lemma nested_default now m path siblings table o key default :
  In (path, table) nested_defaults ->
  In (key, default) table ->
  dict_lookup key o = None ->
  report rt now (VDict (with_object path siblings (o ++ [(key, default)]) m))
  = report rt now (VDict (with_object path siblings o m)).
Proof.
  intros Hpath Hin Ho. cbn [In nested_defaults] in Hpath.
  repeat (destruct Hpath as [[= <- <-] | Hpath];
          [ cbn [In] in Hin;
            repeat (destruct Hin as [[= <- <-] | Hin];
                    [ cbn [with_object nested]; apply report_by_section;
                      unfold basic_info, hashrate, power, temperature, errors, dev_fee,
                        pools, cooling, chains;
                      defaults Ho |]);
            destruct Hin |]).
  destruct Hpath.
Qed.

(** C3, as it holds.  No key has to be there: the renderer reads a key with
    a default, and a document in which a key is absent is rendered as the
    document that binds the key to its default.  The default is 0 where a
    number is printed, "N/A" where a string is printed, an empty dict for a
    nested object and an empty list for [pools], [chains] and [fans]; the
    [id] of a pool, a fan or a chain is read without a default and an
    absent one is printed as [None].  For [{"miner": {}}] and for entries
    without keys this gives the lines of the last four equations. *)
Theorem absent_keys_render_as_defaults now :
  (forall m key default,
      In (key, default) miner_defaults -> dict_lookup key m = None ->
      report rt now (VDict (m ++ [(key, default)])) = report rt now (VDict m)) /\
  (forall m path siblings table o key default,
      In (path, table) nested_defaults -> In (key, default) table ->
      dict_lookup key o = None ->
      report rt now (VDict (with_object path siblings (o ++ [(key, default)]) m))
      = report rt now (VDict (with_object path siblings o m))) /\
  (forall p key default,
      In (key, default) pool_defaults -> dict_lookup key p = None ->
      pool_body rt (VDict (p ++ [(key, default)])) = pool_body rt (VDict p)) /\
  (forall f key default,
      In (key, default) fan_defaults -> dict_lookup key f = None ->
      fan_body rt (VDict (f ++ [(key, default)])) = fan_body rt (VDict f)) /\
  (forall c key default,
      In (key, default) chain_defaults -> dict_lookup key c = None ->
      chain_body rt (VDict (c ++ [(key, default)])) = chain_body rt (VDict c)) /\
  (forall c o key default,
      In (key, default) chip_status_defaults -> dict_lookup key o = None ->
      chain_body rt (VDict (("chip_statuses", VDict (o ++ [(key, default)])) :: c))
      = chain_body rt (VDict (("chip_statuses", VDict o) :: c))) /\
  parse_miner_stats rt now (VDict empty_miner_doc) = (default_report now, Ok tt) /\
  pool_body rt (VDict [])
  = ([ "  ○ [None] N/A"; "     Status: N/A | Diff: N/A";
       "     Accepted: 0 | Rejected: 0 | Stale: 0" ]%string, Ok tt) /\
  fan_body rt (VDict []) = ([ "  • Fan None: 0 RPM (N/A)"%string ], Ok tt) /\
  chain_body rt (VDict [])
  = ([ "  • Chain None:"; "     Frequency: 0 MHz | Voltage: 0 mV";
       "     Hashrate: 0.00 GH/s (0.00%)"; "     Power: 0 W";
       "     Chips: Grey=0, Orange=0, Red=0" ]%string, Ok tt).
Proof.
  split; [intros; apply miner_default; assumption |].
  split; [intros; eapply nested_default; eassumption |].
  split; [intros; apply pool_default; assumption |].
  split; [intros; apply fan_default; assumption |].
  split; [intros; apply chain_default; assumption |].
  split; [intros; apply chip_status_default; assumption |].
  split; [| repeat split; vm_compute; reflexivity ].
  rewrite (parse_with_miner now empty_miner_doc (VDict [])) by reflexivity.
  rewrite (report_timestamp EmptyString now). vm_compute. reflexivity.
Qed.

(** A key of the [miner] dict that the renderer does not read changes
    nothing: the report with the key bound to any value is the report
    without it. *)
Theorem unread_keys_are_ignored now m key v :
  dict_lookup key miner_defaults = None ->
  report rt now (VDict ((key, v) :: m)) = report rt now (VDict m).
Proof.
  intros Hkey. apply report_ext. intros key' default' Hin. apply get_other.
  destruct (String.eqb key key') eqn:E; [| reflexivity].
  apply String.eqb_eq in E. subst key'. congruence.
Qed.

(** *** When the renderer ends normally *)

Lemma ok_seq (a : io unit) (k : unit -> io unit) :
  snd (bind a k) = Ok tt <-> snd a = Ok tt /\ snd (k tt) = Ok tt.
Proof.
  unfold bind. destruct (snd a) as [[] | e]; cbn [snd]; split.
  - intros H. split; [reflexivity | exact H].
  - intros [_ H]. exact H.
  - discriminate.
  - intros [H _]. discriminate H.
Qed.

Lemma ok_eval {A : Type} (e : result A) (k : A -> io unit) :
  snd (bind (eval e) k) = Ok tt <-> exists v, e = Ok v /\ snd (k v) = Ok tt.
Proof.
  destruct e as [v | x].
  - rewrite bind_eval_ok. split; [eauto |]. intros (v' & [= <-] & H). exact H.
  - split; [discriminate |]. intros (v & Hv & _). discriminate Hv.
Qed.

Lemma ok_fstring ps : (exists s, fstring rt ps = Ok s) <-> Forall (piece_ok rt) ps.
Proof.
  induction ps as [| p ps IH]; cbn [fstring].
  - split; [constructor | eauto].
  - split.
    + intros [r Hs]. destruct (piece_str rt p) as [t |] eqn:Ep; [| discriminate Hs].
      cbn [rbind] in Hs. destruct (fstring rt ps) as [u |]; [| discriminate Hs].
      constructor; [exists t; exact Ep | apply IH; eauto].
    + intros H. inversion H as [| ? ? [t Ht] Hps]; subst.
      apply IH in Hps as [u Hu]. rewrite Ht, Hu. cbn [rbind]. eauto.
Qed.

Lemma ok_printf ps : snd (printf rt ps) = Ok tt <-> Forall (piece_ok rt) ps.
Proof.
  rewrite <- ok_fstring. unfold printf. destruct (fstring rt ps) as [s |]; cbn [print snd].
  - split; eauto.
  - split; [discriminate | intros [s Hs]; discriminate Hs].
Qed.

Lemma ok_for_each {A : Type} (body : A -> io unit) l :
  snd (for_each l body) = Ok tt <-> Forall (fun x => snd (body x) = Ok tt) l.
Proof.
  induction l as [| x l IH]; cbn [for_each].
  - split; [constructor | reflexivity].
  - rewrite ok_seq, IH. split.
    + intros [Hx Hl]. constructor; assumption.
    + intros H. inversion H; subst. split; assumption.
Qed.

Lemma ok_loop (P : value -> bool) body l :
  (forall x, snd (body x) = Ok tt <-> P x = true) ->
  snd (for_each l body) = Ok tt <-> forallb P l = true.
Proof.
  intros Hbody. rewrite ok_for_each, forallb_forall, Forall_forall.
  split; intros H x Hx; apply Hbody, H; [apply list_elem_of_In | apply list_elem_of_In]; exact Hx.
Qed.

Lemma format_f_ok p v : (exists s, format_f p v = Ok s) <-> is_number v = true.
Proof.
  split; [| apply format_f_number].
  destruct v; cbn [format_f is_number]; intros [r Hs]; try discriminate Hs; try reflexivity.
  unfold int_to_float in Hs.
  destruct (Z.abs (round_to_double n) <? 2 ^ 1024)%Z; [reflexivity | discriminate Hs].
Qed.

Lemma piece_fixed_ok p key d :
  piece_ok rt (FieldF p (get key (VInt 0) (VDict d))) <-> absent_or is_number key d = true.
Proof.
  unfold piece_ok, absent_or. cbn [piece_str]. rewrite get_dict. cbn [rbind].
  rewrite format_f_ok. destruct (dict_lookup key d); [reflexivity |]. split; reflexivity.
Qed.

Lemma pieces_cons p ps : Forall (piece_ok rt) (p :: ps) <-> piece_ok rt p /\ Forall (piece_ok rt) ps.
Proof. split; [intros H; inversion H; auto | intros [? ?]; constructor; assumption]. Qed.

Lemma piece_status_ok m :
  piece_ok rt (Field (get "miner_status" (VDict []) (VDict m)
                      >>= get "miner_state" (VStr "N/A") >>= upper rt))
  <-> absent_or (dict_with (absent_or is_str "miner_state")) "miner_status" m = true.
Proof.
  split; [| apply piece_ok_status].
  unfold piece_ok, absent_or. cbn [piece_str]. rewrite get_dict. cbn [rbind].
  destruct (dict_lookup "miner_status" m) as [[] |]; intros [r Hr]; try discriminate Hr;
    [| reflexivity].
  cbn [dict_with]. rewrite get_dict in Hr. cbn [rbind] in Hr.
  destruct (dict_lookup "miner_state" d) as [[] |]; try discriminate Hr; reflexivity.
Qed.

Lemma piece_mode_ok c :
  piece_ok rt (Field (get "settings" (VDict []) (VDict c) >>= get "mode" (VDict [])
                      >>= get "name" (VStr "N/A")))
  <-> absent_or (dict_with (absent_or is_dict "mode")) "settings" c = true.
Proof.
  split; [| apply piece_ok_mode].
  unfold piece_ok, absent_or. cbn [piece_str]. rewrite get_dict. cbn [rbind].
  destruct (dict_lookup "settings" c) as [[] |]; intros [r Hr]; try discriminate Hr;
    [| reflexivity].
  cbn [dict_with]. rewrite get_dict in Hr. cbn [rbind] in Hr.
  destruct (dict_lookup "mode" d) as [[] |]; try discriminate Hr; reflexivity.
Qed.

Lemma get_ok_dict key d :
  (exists v, get key (VDict []) (VDict d) = Ok v /\ is_dict v = true)
  <-> absent_or is_dict key d = true.
Proof.
  unfold absent_or. rewrite get_dict. destruct (dict_lookup key d) as [v |].
  - split; [intros (v' & [= <-] & H); exact H | eauto].
  - split; [reflexivity | eauto].
Qed.

Ltac ok_lines :=
  rewrite ?ok_seq, ?ok_printf, ?pieces_cons, ?piece_fixed_ok;
  intuition (try (constructor; fail); auto with pieces).

Lemma ok_hashrate m :
  snd (hashrate rt (VDict m)) = Ok tt <->
  absent_or is_number "average_hashrate" m = true /\
  absent_or is_number "instant_hashrate" m = true /\
  absent_or is_number "hr_nominal" m = true /\
  absent_or is_number "hr_realtime" m = true.
Proof. unfold hashrate. ok_lines. Qed.

Lemma ok_power m :
  snd (power rt (VDict m)) = Ok tt <-> absent_or is_number "power_efficiency" m = true.
Proof. unfold power. ok_lines. Qed.

Lemma ok_errors m : snd (errors rt (VDict m)) = Ok tt.
Proof. apply runs_errors. Qed.

Lemma ok_dev_fee m :
  snd (dev_fee rt (VDict m)) = Ok tt <->
  absent_or is_number "devfee_percent" m = true /\ absent_or is_number "devfee" m = true.
Proof. unfold dev_fee. ok_lines. Qed.

Lemma ok_basic_info m :
  snd (basic_info rt (VDict m)) = Ok tt <->
  absent_or (dict_with (absent_or is_str "miner_state")) "miner_status" m = true.
Proof.
  unfold basic_info. rewrite ok_seq, !ok_printf, !pieces_cons, piece_status_ok.
  intuition (try (constructor; fail); auto with pieces).
Qed.

Lemma piece_field_ok key default v :
  piece_ok rt (Field (get key default v)) <-> is_dict v = true.
Proof.
  unfold piece_ok. cbn [piece_str]. destruct v; cbn [get rbind is_dict dict_with];
    (split; [intros [x Hx]; try discriminate Hx; reflexivity
            | intros H; try discriminate H; eauto]).
Qed.

Lemma default_absent_or (P : value -> bool) key default d :
  P default = true ->
  P match dict_lookup key d with Some v => v | None => default end = absent_or P key d.
Proof. intros H. unfold absent_or. destruct (dict_lookup key d); [reflexivity | exact H]. Qed.

Lemma ok_temperature m :
  snd (temperature rt (VDict m)) = Ok tt <->
  absent_or is_dict "pcb_temp" m = true /\ absent_or is_dict "chip_temp" m = true.
Proof.
  unfold temperature. rewrite !get_dict, !bind_eval_ok.
  rewrite !ok_seq, !ok_printf, !pieces_cons, !piece_field_ok.
  rewrite !(default_absent_or is_dict) by reflexivity.
  intuition (try (constructor; fail); auto with pieces).
Qed.

Lemma ok_pool_body x : snd (pool_body rt x) = Ok tt <-> is_dict x = true.
Proof.
  split.
  - destruct x; try reflexivity; intros H; discriminate H.
  - intros H. apply is_dict_inv in H as [p ->]. apply runs_pool_body.
Qed.

Lemma ok_fan_body x : snd (fan_body rt x) = Ok tt <-> is_dict x = true.
Proof.
  split.
  - destruct x; try reflexivity; intros H; discriminate H.
  - intros H. apply is_dict_inv in H as [p ->]. apply runs_fan_body.
Qed.

Lemma ok_chain_body x : snd (chain_body rt x) = Ok tt <-> chain_shape x = true.
Proof.
  destruct x; try (split; intros H; discriminate H). cbn [chain_shape dict_with].
  unfold chain_body.
  rewrite (get_dict "chip_statuses"), !ok_seq, bind_eval_ok, !ok_printf, !pieces_cons.
  rewrite !piece_fixed_ok, !piece_field_ok.
  rewrite !(default_absent_or is_dict) by reflexivity. rewrite !andb_true_iff.
  intuition (try (constructor; fail); auto with pieces).
Qed.

Lemma ok_iter (P : value -> bool) body v :
  (forall x, snd (body x) = Ok tt <-> P x = true) ->
  snd (bind (eval (iter v)) (fun members => for_each members body)) = Ok tt
  <-> members_ok P v = true.
Proof.
  intros Hbody. rewrite ok_eval. unfold members_ok. destruct (iter v) as [l | e].
  - rewrite <- (ok_loop P body l Hbody). split; [intros (l' & [= <-] & H); exact H | eauto].
  - split; [intros (l' & H & _); discriminate H | discriminate].
Qed.

Lemma piece_len_ok v : members_ok (fun _ => true) v = true -> piece_ok rt (Field (len v)).
Proof. destruct v; try discriminate; intros _; eexists; reflexivity. Qed.

Lemma members_ok_sized P v : members_ok P v = true -> piece_ok rt (Field (len v)).
Proof.
  intros H. apply piece_len_ok. unfold members_ok in *.
  destruct (iter v) as [l |]; [| discriminate H]. clear H.
  induction l; [reflexivity | assumption].
Qed.

Lemma ok_pools m :
  snd (pools rt (VDict m)) = Ok tt <-> absent_or (members_ok is_dict) "pools" m = true.
Proof.
  unfold pools. rewrite get_dict, bind_eval_ok.
  rewrite <- (default_absent_or (members_ok is_dict) "pools" (VList [])) by reflexivity.
  rewrite ok_seq, (ok_iter is_dict) by apply ok_pool_body.
  rewrite ok_printf, !pieces_cons. split; [tauto |].
  intros H. split; [| exact H].
  split; [apply piece_ok_lit |]. split; [eapply members_ok_sized, H |].
  split; [apply piece_ok_lit | constructor].
Qed.

Lemma ok_chains m :
  snd (chains rt (VDict m)) = Ok tt <-> absent_or (members_ok chain_shape) "chains" m = true.
Proof.
  unfold chains. rewrite get_dict, bind_eval_ok.
  rewrite <- (default_absent_or (members_ok chain_shape) "chains" (VList [])) by reflexivity.
  rewrite ok_seq, (ok_iter chain_shape) by apply ok_chain_body.
  rewrite ok_printf, !pieces_cons. split; [tauto |].
  intros H. split; [| exact H].
  split; [apply piece_ok_lit |]. split; [eapply members_ok_sized, H |].
  split; [apply piece_ok_lit | constructor].
Qed.

Lemma ok_cooling m :
  snd (cooling rt (VDict m)) = Ok tt <-> absent_or cooling_renderable "cooling" m = true.
Proof.
  unfold cooling. rewrite get_dict, bind_eval_ok.
  rewrite <- (default_absent_or cooling_renderable "cooling" (VDict [])) by reflexivity.
  destruct (match dict_lookup "cooling" m with Some v => v | None => VDict [] end) as [| | | | | | c];
    try (split; intros H; discriminate H).
  cbn [cooling_renderable dict_with]. rewrite get_dict, bind_eval_ok.
  rewrite !ok_seq, (ok_iter is_dict) by apply ok_fan_body.
  rewrite !ok_printf, !pieces_cons, piece_mode_ok, andb_true_iff.
  rewrite <- (default_absent_or (members_ok is_dict) "fans" (VList [])) by reflexivity.
  intuition (try (constructor; fail); auto with pieces).
Qed.

(** The renderer ends normally on the renderable documents and on no
    other. *)
Lemma report_ok_iff now miner :
  snd (report rt now miner) = Ok tt <-> renderable miner = true.
Proof.
  destruct miner as [| | | | | | m]; try (split; intros H; discriminate H).
  cbn [renderable dict_with]. unfold report.
  rewrite !ok_seq, ok_basic_info, ok_hashrate, ok_power, ok_temperature, ok_dev_fee,
    ok_pools, ok_cooling, ok_chains, !andb_true_iff.
  pose proof (runs_header now) as (Hh & _). pose proof (ok_errors m). pose proof runs_footer as (Hf & _).
  tauto.
Qed.

Lemma list_of_members_ok P v : list_of P v = true -> members_ok P v = true.
Proof. destruct v; try discriminate. intros H. exact H. Qed.

Lemma miner_shape_renderable miner : miner_shape miner = true -> renderable miner = true.
Proof.
  destruct miner as [| | | | | | m]; try discriminate. intros H.
  apply miner_shape_fields in H.
  destruct H as (Hst & (? & ? & ? & ?) & ? & (? & ?) & (? & ?) & Hp & Hc & Hch).
  cbn [renderable dict_with]. repeat (apply andb_true_iff; split); try assumption.
  - unfold absent_or in *. destruct (dict_lookup "pools" m); [| reflexivity].
    apply list_of_members_ok, Hp.
  - unfold absent_or in *. destruct (dict_lookup "cooling" m) as [[] |]; try discriminate Hc;
      [| reflexivity].
    cbn [cooling_shape cooling_renderable dict_with] in *.
    apply andb_true_iff in Hc as [Hf Hs]. apply andb_true_iff. split; [| exact Hs].
    unfold absent_or in *. destruct (dict_lookup "fans" d); [| reflexivity].
    apply list_of_members_ok, Hf.
  - unfold absent_or in *. destruct (dict_lookup "chains" m); [| reflexivity].
    apply list_of_members_ok, Hch.
Qed.

(** The renderer ends normally exactly on the documents whose [miner] is
    renderable: every key absent or of the type it is used at.  A document
    of the expected shape is renderable. *)
Theorem ends_normally_iff_renderable now d miner :
  dict_lookup "miner" d = Some miner ->
  (snd (parse_miner_stats rt now (VDict d)) = Ok tt <-> renderable miner = true) /\
  (miner_shape miner = true -> renderable miner = true).
Proof.
  intros Hd. rewrite (parse_with_miner now d _ Hd).
  split; [apply report_ok_iff | apply miner_shape_renderable].
Qed.

(** *** The order of the sections, whatever the document *)

Lemma in_order_seq ms1 ms2 ms (a : io unit) (k : unit -> io unit) :
  in_order ms1 a -> in_order ms2 (k tt) -> ms = ms1 ++ ms2 -> in_order ms (bind a k).
Proof.
  unfold in_order, bind. intros Ha Hk ->. destruct (snd a) as [[] | e]; cbn [fst snd].
  - unfold sections_of in *. rewrite omap_app.
    destruct (snd (k tt)); [congruence |]. rewrite Ha. apply prefix_app, Hk.
  - apply prefix_app_r, Ha.
Qed.

Lemma in_order_eval {A : Type} ms (e : result A) (k : A -> io unit) :
  (forall v, in_order ms (k v)) -> in_order ms (bind (eval e) k).
Proof.
  intros H. destruct e as [v | x]; [rewrite bind_eval_ok; apply H |].
  apply prefix_nil.
Qed.

Lemma in_order_printf o h ps :
  (forall t, section_marker (h +:+ t) = o) ->
  in_order (option_list o) (printf rt (Lit h :: ps)).
Proof.
  intros Hh. unfold printf, in_order. cbn [fstring piece_str rbind].
  destruct (fstring rt ps) as [t | e]; cbn [rbind print fst snd].
  - unfold sections_of. cbn [omap list_omap]. rewrite Hh. destruct o; reflexivity.
  - apply prefix_nil.
Qed.

Lemma in_order_print s : in_order (option_list (section_marker s)) (print (Ok s)).
Proof. unfold in_order. cbn. destruct (section_marker s); reflexivity. Qed.

Lemma in_order_for_each {A : Type} (body : A -> io unit) l :
  (forall x, in_order [] (body x)) -> in_order [] (for_each l body).
Proof.
  intros Hbody. induction l as [| x l IH]; cbn [for_each]; [reflexivity |].
  apply (in_order_seq [] [] []); [apply Hbody | exact IH | reflexivity].
Qed.

Ltac olast := apply (in_order_printf None); intros ?; reflexivity.
Ltac oline := eapply (in_order_seq []); [ olast | | reflexivity ].
Ltac oheading i :=
  eapply (in_order_seq [i]);
  [ apply (in_order_printf (Some i)); intros ?; reflexivity | | reflexivity ].
Ltac oassign := apply in_order_eval; intros ?.

Lemma in_order_report now miner :
  in_order [1; 2; 3; 4; 5; 6; 7; 8; 9; 10; 11] (report rt now miner).
Proof.
  unfold report.
  eapply (in_order_seq [1]); [| | reflexivity].
  { unfold header. eapply (in_order_seq []); [apply in_order_print | | reflexivity].
    oheading 1%nat. apply in_order_print. }
  eapply (in_order_seq [2]); [| | reflexivity].
  { unfold basic_info. oheading 2%nat. olast. }
  eapply (in_order_seq [3]); [| | reflexivity].
  { unfold hashrate. oheading 3%nat. do 3 oline. olast. }
  eapply (in_order_seq [4]); [| | reflexivity].
  { unfold power. oheading 4%nat. oline. olast. }
  eapply (in_order_seq [5]); [| | reflexivity].
  { unfold temperature. do 2 oassign. oheading 5%nat. oline. olast. }
  eapply (in_order_seq [6]); [| | reflexivity].
  { unfold errors. oheading 6%nat. oline. olast. }
  eapply (in_order_seq [7]); [| | reflexivity].
  { unfold dev_fee. oheading 7%nat. oline. olast. }
  eapply (in_order_seq [8]); [| | reflexivity].
  { unfold pools. oassign. oheading 8%nat. oassign. apply in_order_for_each.
    intros x. unfold pool_body. oassign. do 2 oline. olast. }
  eapply (in_order_seq [9]); [| | reflexivity].
  { unfold cooling. do 2 oassign. oheading 9%nat. do 2 oline. oassign.
    apply in_order_for_each. intros x. unfold fan_body. olast. }
  eapply (in_order_seq [10]); [| apply in_order_print | reflexivity].
  unfold chains. oassign. oheading 10%nat. oassign. apply in_order_for_each.
  intros x. unfold chain_body. do 4 oline. oassign. olast.
Qed.

(** Whatever the document, the output opens the sections in their order,
    none twice and none before an earlier one: the sections opened are the
    first ones of the eleven.  After a normal end the output is the single
    no-data line or opens all eleven. *)
Theorem sections_never_out_of_order now data :
  sections_of (fst (parse_miner_stats rt now data))
    `prefix_of` [1; 2; 3; 4; 5; 6; 7; 8; 9; 10; 11] /\
  (snd (parse_miner_stats rt now data) = Ok tt ->
   fst (parse_miner_stats rt now data) = ["No miner data available"%string] \/
   sections_of (fst (parse_miner_stats rt now data)) = [1; 2; 3; 4; 5; 6; 7; 8; 9; 10; 11]).
Proof.
  unfold parse_miner_stats. destruct (no_miner_data data) as [[|] | e].
  - rewrite bind_eval_ok. split; [apply prefix_nil | left; reflexivity].
  - rewrite bind_eval_ok. destruct (getitem "miner" data) as [miner | e].
    + rewrite bind_eval_ok. pose proof (in_order_report now miner) as H.
      unfold in_order in H. destruct (snd (report rt now miner)) as [[] | e].
      * rewrite H. split; [reflexivity | right; reflexivity].
      * split; [exact H | discriminate].
    + split; [apply prefix_nil | discriminate].
  - split; [apply prefix_nil | discriminate].
Qed.

(** *** Documents that are not of the expected shape *)

Lemma bind_runs n ms (a : io unit) (k : unit -> io unit) :
  runs n ms a -> bind a k = (fst a ++ fst (k tt), snd (k tt)).
Proof. intros (Ha & _). unfold bind. rewrite Ha. reflexivity. Qed.

Lemma bind_raise (a : io unit) (k : unit -> io unit) e :
  snd a = Raise e -> bind a k = (fst a, Raise e).
Proof. intros Ha. unfold bind. rewrite Ha. reflexivity. Qed.

Lemma header_banner now : header rt now = (banner now, Ok tt).
Proof.
  unfold header, printf, title, banner, title.
  cbn [fstring piece_str rbind str_of]. rewrite !append_nil_r. reflexivity.
Qed.

(** Whatever is under [miner], the output starts with the three lines of the
    banner.  When it is not a dict, that is all of the output, and the
    renderer ends with an [AttributeError]. *)
Theorem banner_precedes_any_failure now d miner :
  dict_lookup "miner" d = Some miner ->
  take 3 (fst (parse_miner_stats rt now (VDict d))) = banner now /\
  (is_dict miner = false ->
   parse_miner_stats rt now (VDict d) = (banner now, Raise AttributeError)).
Proof.
  intros Hd. rewrite (parse_with_miner now d _ Hd). unfold report.
  rewrite (bind_runs 3 [1%nat]) by apply runs_header. rewrite header_banner.
  split; [reflexivity |].
  intros Hm. destruct miner; try discriminate Hm; reflexivity.
Qed.

(** A document that is not a dict never starts a report: it gives the
    no-data line, or a [TypeError] before anything is printed.  A list or
    a string gives the error exactly when it contains "miner", a number
    or [True] exactly when it is not zero. *)
Theorem root_not_a_dict now data :
  is_dict data = false ->
  parse_miner_stats rt now data =
  if match data with
     | VList l => existsb (fun x => eq_str x "miner") l
     | VStr s => str_contains "miner" s
     | other => truthy other
     end
  then ([], Raise TypeError)
  else (["No miner data available"%string], Ok tt).
Proof.
  intros Hd. unfold parse_miner_stats, no_miner_data.
  destruct data as [| b | n | f | s | l | d]; try discriminate Hd; try reflexivity.
  - destruct b; reflexivity.
  - cbn [truthy]. destruct (n =? 0)%Z; reflexivity.
  - destruct f; reflexivity.
  - destruct s as [| c s]; [reflexivity |]. cbn [truthy String.eqb negb contains rbind].
    rewrite bind_eval_ok. destruct (str_contains "miner" (String c s)); reflexivity.
  - destruct l as [| x l]; [reflexivity |]. cbn [truthy negb contains rbind].
    rewrite bind_eval_ok.
    destruct (existsb (fun x0 => eq_str x0 "miner") (x :: l)); reflexivity.
Qed.

(** *** An entry of a sequence that is not a dict *)

Lemma for_each_stops (body : value -> io unit)
    (entry : list (string * value) -> list string) ps x rest e :
  (forall p, body (VDict p) = (entry p, Ok tt)) ->
  body x = ([], Raise e) ->
  for_each (map VDict ps ++ x :: rest) body = (concat (map entry ps), Raise e).
Proof.
  intros Hbody Hx. induction ps as [| p ps IH]; cbn [map app for_each concat].
  - unfold bind. rewrite Hx. reflexivity.
  - unfold bind. rewrite Hbody, IH. reflexivity.
Qed.

Lemma pool_body_not_dict x : is_dict x = false -> pool_body rt x = ([], Raise AttributeError).
Proof. destruct x; try discriminate; reflexivity. Qed.

Lemma pools_stop m ps x rest :
  dict_lookup "pools" m = Some (VList (map VDict ps ++ x :: rest)) ->
  is_dict x = false ->
  pools rt (VDict m)
  = (pools_heading (length ps + S (length rest)) :: concat (map (pool_entry rt) ps),
     Raise AttributeError).
Proof.
  intros H Hx. unfold pools. rewrite (get_present _ _ _ _ H), bind_eval_ok.
  unfold printf. cbn [fstring piece_str rbind len str_of repr iter].
  rewrite bind_print_ok, bind_eval_ok, length_app, length_map. cbn [length].
  rewrite (for_each_stops _ (pool_entry rt) ps x rest AttributeError)
    by first [ apply pool_body_entry | apply pool_body_not_dict, Hx ].
  cbn [fst snd]. unfold pools_heading. rewrite append_nil_r, !append_assoc. reflexivity.
Qed.

Lemma scalar_shape_fields m :
  scalar_shape (VDict m) = true ->
  absent_or (dict_with (absent_or is_str "miner_state")) "miner_status" m = true /\
  (absent_or is_number "average_hashrate" m = true /\
   absent_or is_number "instant_hashrate" m = true /\
   absent_or is_number "hr_nominal" m = true /\
   absent_or is_number "hr_realtime" m = true) /\
  absent_or is_number "power_efficiency" m = true /\
  (absent_or is_dict "pcb_temp" m = true /\ absent_or is_dict "chip_temp" m = true) /\
  (absent_or is_number "devfee_percent" m = true /\ absent_or is_number "devfee" m = true).
Proof.
  cbn [scalar_shape dict_with]. rewrite !andb_true_iff. tauto.
Qed.

(** The report up to the pools section, for any rest of the report. *)
Lemma report_before_pools now m :
  scalar_shape (VDict m) = true ->
  exists first, length first = 22%nat /\ sections_of first = [1; 2; 3; 4; 5; 6; 7]%nat /\
    report rt now (VDict m)
    = (first ++ fst (pools rt (VDict m) >> cooling rt (VDict m) >> chains rt (VDict m) >> footer),
       snd (pools rt (VDict m) >> cooling rt (VDict m) >> chains rt (VDict m) >> footer)).
Proof.
  intros H. apply scalar_shape_fields in H.
  destruct H as (Hst & (? & ? & ? & ?) & ? & (? & ?) & (? & ?)).
  pose proof (runs_header now) as R1.
  pose proof (runs_basic_info m Hst) as R2.
  assert (R3 : runs 5 [3%nat] (hashrate rt (VDict m))) by (apply runs_hashrate; assumption).
  assert (R4 : runs 3 [4%nat] (power rt (VDict m))) by (apply runs_power; assumption).
  assert (R5 : runs 3 [5%nat] (temperature rt (VDict m)))
    by (apply runs_temperature; assumption).
  pose proof (runs_errors m) as R6.
  assert (R7 : runs 3 [7%nat] (dev_fee rt (VDict m))) by (apply runs_dev_fee; assumption).
  unfold report.
  rewrite (bind_runs _ _ _ _ R1), (bind_runs _ _ _ _ R2), (bind_runs _ _ _ _ R3),
    (bind_runs _ _ _ _ R4), (bind_runs _ _ _ _ R5), (bind_runs _ _ _ _ R6),
    (bind_runs _ _ _ _ R7).
  cbn [fst snd].
  destruct R1 as (_ & L1 & S1), R2 as (_ & L2 & S2), R3 as (_ & L3 & S3),
    R4 as (_ & L4 & S4), R5 as (_ & L5 & S5), R6 as (_ & L6 & S6), R7 as (_ & L7 & S7).
  exists (fst (header rt now) ++ fst (basic_info rt (VDict m)) ++ fst (hashrate rt (VDict m))
          ++ fst (power rt (VDict m)) ++ fst (temperature rt (VDict m))
          ++ fst (errors rt (VDict m)) ++ fst (dev_fee rt (VDict m))).
  split; [| split].
  - rewrite !length_app, L1, L2, L3, L4, L5, L6, L7. reflexivity.
  - unfold sections_of in *. rewrite !omap_app, S1, S2, S3, S4, S5, S6, S7. reflexivity.
  - rewrite <- !app_assoc. reflexivity.
Qed.

Lemma entries_open_no_section (entry : list (string * value) -> list string) ps :
  (forall p, sections_of (entry p) = []) ->
  omap section_marker (concat (map entry ps)) = [].
Proof.
  intros H. induction ps as [| p ps IH]; cbn [map concat]; [reflexivity |].
  rewrite omap_app, IH. rewrite app_nil_r. apply H.
Qed.

(** A pool that is not a dict stops the report: the pools heading counts
    every member of the list, the entries of the pools before the odd one
    are printed, then the renderer ends with an [AttributeError]; the
    cooling and hash-chains sections and the closing banner are not
    printed. *)
Theorem pool_not_a_dict_stops_report now d m ps x rest :
  dict_lookup "miner" d = Some (VDict m) ->
  scalar_shape (VDict m) = true ->
  dict_lookup "pools" m = Some (VList (map VDict ps ++ x :: rest)) ->
  is_dict x = false ->
  snd (parse_miner_stats rt now (VDict d)) = Raise AttributeError /\
  drop 22 (fst (parse_miner_stats rt now (VDict d)))
  = pools_heading (length ps + S (length rest)) :: concat (map (pool_entry rt) ps) /\
  sections_of (fst (parse_miner_stats rt now (VDict d))) = [1; 2; 3; 4; 5; 6; 7; 8]%nat.
Proof.
  intros Hd Hm Hp Hx. rewrite (parse_with_miner now d _ Hd).
  destruct (report_before_pools now m Hm) as (first & Hlen & Hsec & ->).
  pose proof (pools_stop m ps x rest Hp Hx) as Hpools.
  rewrite (bind_raise (pools rt (VDict m)) _ AttributeError) by (rewrite Hpools; reflexivity).
  rewrite Hpools. cbn [fst snd]. split; [reflexivity |]. split.
  - rewrite drop_app_length' by (symmetry; exact Hlen). reflexivity.
  - unfold sections_of in *. rewrite omap_app, Hsec. cbn [omap list_omap].
    replace (section_marker (pools_heading (length ps + S (length rest)))) with (Some 8%nat)
      by reflexivity.
    rewrite entries_open_no_section; [reflexivity |].
    intros p. change (pool_entry rt p) with (fst (pool_entry rt p, @Ok unit tt)).
    rewrite <- pool_body_entry. apply runs_pool_body.
Qed.

(** *** The entries of the cooling and hash-chains sections *)

Lemma fan_body_line f : fan_body rt (VDict f) = ([fan_line rt f], Ok tt).
Proof.
  unfold fan_body, fan_line, printf, shown. cbn [fstring piece_str rbind get str_of print].
  rewrite !append_nil_r. reflexivity.
Qed.

Lemma concat_singletons {A B : Type} (f : A -> B) l : concat (map (fun x => [f x]) l) = map f l.
Proof. induction l as [| x l IH]; [reflexivity |]. cbn [map concat app]. rewrite IH. reflexivity. Qed.

Lemma cooling_lines m c fs :
  dict_lookup "cooling" m = Some (VDict c) ->
  dict_lookup "fans" c = Some (VList (map VDict fs)) ->
  absent_or (dict_with (absent_or is_dict "mode")) "settings" c = true ->
  exists mode,
    cooling rt (VDict m)
    = (cooling_heading
         :: ("  • Fan Duty: " +:+ shown rt "fan_duty" (VInt 0) c +:+ "%")
         :: ("  • Mode: " +:+ mode)
         :: map (fan_line rt) fs, Ok tt).
Proof.
  intros Hc Hf Hs. unfold cooling.
  rewrite (get_present _ _ _ _ Hc), bind_eval_ok, (get_present _ _ _ _ Hf), bind_eval_ok.
  destruct (printf_ok "  • Mode: "
              [Field (get "settings" (VDict []) (VDict c) >>= get "mode" (VDict [])
                      >>= get "name" (VStr "N/A"))]) as [mode Hmode].
  { repeat constructor. apply piece_ok_mode, Hs. }
  exists mode. rewrite Hmode. unfold printf, shown.
  cbn [fstring piece_str rbind get str_of iter].
  rewrite !bind_print_ok, bind_eval_ok.
  rewrite (for_each_entries _ (fun f => [fan_line rt f])) by apply fan_body_line.
  rewrite concat_singletons. unfold bind. cbn [fst snd app].
  rewrite !append_nil_r. reflexivity.
Qed.

(** The cooling section lists the fans in the order of the document, one
    line each after the heading, the duty line and the mode line: the fan's
    [id], its [rpm] and its [status], with [None], [0] and "N/A" for an
    absent key. *)
Theorem fan_lines_in_order m c fs :
  dict_lookup "cooling" m = Some (VDict c) ->
  dict_lookup "fans" c = Some (VList (map VDict fs)) ->
  absent_or (dict_with (absent_or is_dict "mode")) "settings" c = true ->
  snd (cooling rt (VDict m)) = Ok tt /\
  take 2 (fst (cooling rt (VDict m)))
  = [cooling_heading; "  • Fan Duty: " +:+ shown rt "fan_duty" (VInt 0) c +:+ "%"] /\
  drop 3 (fst (cooling rt (VDict m))) = map (fan_line rt) fs.
Proof.
  intros Hc Hf Hs. destruct (cooling_lines m c fs Hc Hf Hs) as [mode ->].
  repeat split; reflexivity.
Qed.

Lemma for_each_entries_if (P : value -> bool) (body : value -> io unit)
    (entry : list (string * value) -> list string) ps :
  (forall p, P (VDict p) = true -> body (VDict p) = (entry p, Ok tt)) ->
  forallb P (map VDict ps) = true ->
  for_each (map VDict ps) body = (concat (map entry ps), Ok tt).
Proof.
  intros Hbody. induction ps as [| p ps IH]; cbn [map for_each concat forallb]; [reflexivity |].
  intros H. apply andb_true_iff in H as [Hp Hps].
  unfold bind. rewrite (Hbody p Hp), (IH Hps). reflexivity.
Qed.

Lemma shown_fixed_ok p key c :
  absent_or is_number key c = true ->
  piece_str rt (FieldF p (get key (VInt 0) (VDict c))) = Ok (shown_fixed p key c).
Proof.
  intros H. rewrite <- (default_absent_or is_number key (VInt 0)) in H by reflexivity.
  destruct (format_f_number p _ H) as [s Hs].
  unfold shown_fixed. cbn [piece_str get rbind]. rewrite Hs. reflexivity.
Qed.

Lemma chain_body_entry c :
  chain_shape (VDict c) = true -> chain_body rt (VDict c) = (chain_entry rt c, Ok tt).
Proof.
  cbn [chain_shape dict_with]. rewrite !andb_true_iff. intros [[Hr Hp] Hs].
  unfold chain_body, chain_entry, printf.
  cbn [fstring]. rewrite (shown_fixed_ok 2 _ _ Hr), (shown_fixed_ok 2 _ _ Hp).
  rewrite (get_dict "chip_statuses"). unfold chip_statuses_of, shown, absent_or in *.
  destruct (dict_lookup "chip_statuses" c) as [[] |]; try discriminate Hs;
    cbn [fstring piece_str rbind get str_of];
    rewrite !bind_print_ok, bind_eval_ok;
    cbn [fstring piece_str rbind get str_of print fst snd];
    rewrite !append_nil_r; reflexivity.
Qed.

(** The hash-chains section lists the chains in the order of the document,
    five lines each after a heading with their number: the chain's [id];
    frequency and voltage; hashrate and its percentage with two decimals;
    power; the grey, orange and red chip counts. *)
Theorem chain_entries_in_order m cs :
  dict_lookup "chains" m = Some (VList (map VDict cs)) ->
  forallb chain_shape (map VDict cs) = true ->
  chains rt (VDict m)
  = (chains_heading (length cs) :: concat (map (chain_entry rt) cs), Ok tt).
Proof.
  intros H Hcs. unfold chains. rewrite (get_present _ _ _ _ H), bind_eval_ok.
  unfold printf. cbn [fstring piece_str rbind len str_of repr iter].
  rewrite bind_print_ok, bind_eval_ok, length_map.
  rewrite (for_each_entries_if chain_shape _ (chain_entry rt))
    by first [ apply chain_body_entry | exact Hcs ].
  cbn [fst snd]. unfold chains_heading. rewrite append_nil_r, !append_assoc. reflexivity.
Qed.

(** *** The document without a [miner] key *)

Lemma parse_without_miner now d :
  dict_lookup "miner" d = None ->
  parse_miner_stats rt now (VDict d) = (["No miner data available"%string], Ok tt).
Proof.
  intros H. unfold parse_miner_stats, no_miner_data, contains. rewrite H.
  destruct (truthy (VDict d)); reflexivity.
Qed.

(** *** The exceptions of the renderer *)

Lemma safe_seq (a : io unit) (k : unit -> io unit) :
  snd a <> Raise KeyError -> snd (k tt) <> Raise KeyError ->
  snd (bind a k) <> Raise KeyError.
Proof. unfold bind. destruct (snd a) as [[] | e]; cbn [snd]; auto. Qed.

Lemma safe_eval {A : Type} (e : result A) (k : A -> io unit) :
  e <> Raise KeyError -> (forall v, snd (k v) <> Raise KeyError) ->
  snd (bind (eval e) k) <> Raise KeyError.
Proof.
  intros He Hk. destruct e as [v | x]; [rewrite bind_eval_ok; apply Hk |].
  cbn. intros [= ->]. apply He. reflexivity.
Qed.

Lemma safe_for_each {A : Type} (body : A -> io unit) l :
  (forall x, snd (body x) <> Raise KeyError) -> snd (for_each l body) <> Raise KeyError.
Proof.
  intros Hbody. induction l as [| x l IH]; cbn [for_each]; [discriminate |].
  apply safe_seq; [apply Hbody | exact IH].
Qed.

Lemma safe_rbind {A B : Type} (e : result A) (f : A -> result B) :
  e <> Raise KeyError -> (forall v, f v <> Raise KeyError) -> rbind e f <> Raise KeyError.
Proof.
  intros He Hf. destruct e as [v | x]; [apply Hf |].
  cbn. intros [= ->]. apply He. reflexivity.
Qed.

Lemma safe_get key default v : get key default v <> Raise KeyError.
Proof. destruct v; discriminate. Qed.

Lemma safe_upper v : upper rt v <> Raise KeyError.
Proof. destruct v; discriminate. Qed.

Lemma safe_len v : len v <> Raise KeyError.
Proof. destruct v; discriminate. Qed.

Lemma safe_iter v : iter v <> Raise KeyError.
Proof. destruct v; discriminate. Qed.

Lemma safe_format_f p v : format_f p v <> Raise KeyError.
Proof.
  destruct v; try discriminate. cbn [format_f]. unfold int_to_float.
  destruct (Z.abs (round_to_double n) <? 2 ^ 1024)%Z; discriminate.
Qed.

Lemma safe_printf ps :
  Forall (fun p => piece_str rt p <> Raise KeyError) ps ->
  snd (printf rt ps) <> Raise KeyError.
Proof.
  intros H. unfold printf.
  assert (Hs : fstring rt ps <> Raise KeyError).
  { induction H as [| p ps Hp _ IH]; [discriminate |]. cbn [fstring].
    apply safe_rbind; [exact Hp |]. intros s. apply safe_rbind; [exact IH | discriminate]. }
  destruct (fstring rt ps) as [s | e]; [discriminate |].
  cbn [print snd]. intros [= ->]. apply Hs. reflexivity.
Qed.

Lemma safe_lit s : piece_str rt (Lit s) <> Raise KeyError.
Proof. discriminate. Qed.

Lemma safe_field e : e <> Raise KeyError -> piece_str rt (Field e) <> Raise KeyError.
Proof. intros He. apply safe_rbind; [exact He | discriminate]. Qed.

Lemma safe_fixed p e : e <> Raise KeyError -> piece_str rt (FieldF p e) <> Raise KeyError.
Proof. intros He. apply safe_rbind; [exact He | apply safe_format_f]. Qed.

Ltac safe_piece :=
  first
    [ apply safe_lit
    | apply safe_field; repeat first
        [ apply safe_get | apply safe_len | discriminate
        | apply safe_rbind; [| first [ apply safe_get | apply safe_upper ] ] ]
    | apply safe_fixed; apply safe_get ].
Ltac safe_line := apply safe_printf; repeat (constructor; [ safe_piece | ]); constructor.
Ltac safe_lines := repeat (apply safe_seq; [ safe_line | ]); safe_line.

Lemma safe_report now miner : snd (report rt now miner) <> Raise KeyError.
Proof.
  unfold report.
  apply safe_seq.
  { unfold header. apply safe_seq; [discriminate |]. apply safe_seq; [safe_line | discriminate]. }
  apply safe_seq; [unfold basic_info; safe_lines |].
  apply safe_seq; [unfold hashrate; safe_lines |].
  apply safe_seq; [unfold power; safe_lines |].
  apply safe_seq.
  { unfold temperature. apply safe_eval; [apply safe_get | intros pcb].
    apply safe_eval; [apply safe_get | intros chip]. safe_lines. }
  apply safe_seq; [unfold errors; safe_lines |].
  apply safe_seq; [unfold dev_fee; safe_lines |].
  apply safe_seq.
  { unfold pools. apply safe_eval; [apply safe_get | intros l].
    apply safe_seq; [safe_line |]. apply safe_eval; [apply safe_iter | intros ms].
    apply safe_for_each. intros x. unfold pool_body. apply safe_eval.
    - apply safe_rbind; [apply safe_get | discriminate].
    - intros icon. safe_lines. }
  apply safe_seq.
  { unfold cooling. apply safe_eval; [apply safe_get | intros c].
    apply safe_eval; [apply safe_get | intros fans].
    do 3 (apply safe_seq; [safe_line |]). apply safe_eval; [apply safe_iter | intros ms].
    apply safe_for_each. intros x. unfold fan_body. safe_line. }
  apply safe_seq; [| discriminate].
  unfold chains. apply safe_eval; [apply safe_get | intros l].
  apply safe_seq; [safe_line |]. apply safe_eval; [apply safe_iter | intros ms].
  apply safe_for_each. intros x. unfold chain_body.
  do 4 (apply safe_seq; [safe_line |]). apply safe_eval; [apply safe_get | intros st].
  safe_line.
Qed.

(** The renderer never ends with a [KeyError], whatever the document: the
    test of line 52 guards the one subscript, and every other key is read
    with [.get]. *)
Theorem renderer_raises_no_key_error now data :
  snd (parse_miner_stats rt now data) <> Raise KeyError.
Proof.
  unfold parse_miner_stats.
  destruct (no_miner_data data) as [[|] | e] eqn:Hno.
  - rewrite bind_eval_ok. discriminate.
  - rewrite bind_eval_ok. destruct (getitem "miner" data) as [miner | e] eqn:Hget.
    + rewrite bind_eval_ok. apply safe_report.
    + cbn. intros [= ->]. unfold no_miner_data in Hno.
      destruct data; try discriminate Hget.
      cbn [getitem contains rbind] in *.
      destruct (dict_lookup "miner" d); [discriminate Hget |].
      destruct (negb (truthy (VDict d))); discriminate Hno.
  - cbn. intros [= ->]. unfold no_miner_data in Hno.
    destruct (negb (truthy data)); [discriminate Hno |].
    destruct data; discriminate Hno.
Qed.

(** *** The lines the renderer reaches *)

Lemma paced_printf ps : paced 1 (printf rt ps).
Proof.
  unfold paced, printf. destruct (fstring rt ps) as [s | e]; cbn [print fst snd length].
  - split; [lia | reflexivity].
  - split; [lia | discriminate].
Qed.

Lemma paced_print s : paced 1 (print (Ok s)).
Proof. split; [cbn; lia | reflexivity]. Qed.

Lemma paced_seq n1 n2 (a : io unit) (k : unit -> io unit) :
  paced n1 a -> paced n2 (k tt) -> paced (n1 + n2) (bind a k).
Proof.
  unfold paced, bind. intros [La Ea] [Lk Ek]. destruct (snd a) as [[] | e] eqn:E; cbn [fst snd].
  - specialize (Ea eq_refl). rewrite length_app. split; [lia |].
    intros H. specialize (Ek H). lia.
  - split; [lia | discriminate].
Qed.

Lemma paced_eval {A : Type} (e : result A) (k : A -> io unit) n :
  (forall v, paced n (k v)) -> paced n (bind (eval e) k).
Proof.
  intros H. destruct e as [v | x]; [rewrite bind_eval_ok; apply H |].
  split; [cbn; lia | discriminate].
Qed.

(** A line after a statement is printed exactly when the statement ends
    normally and what follows it prints the line. *)
Lemma reach n (a : io unit) (k : unit -> io unit) i s :
  paced n a -> (n <= i)%nat ->
  fst (bind a k) !! i = Some s <-> snd a = Ok tt /\ fst (k tt) !! (i - n)%nat = Some s.
Proof.
  intros [La Ea] Hi. unfold bind. destruct (snd a) as [[] | e] eqn:E; cbn [fst snd].
  - specialize (Ea eq_refl). rewrite lookup_app_r by lia. rewrite Ea.
    split; [intros H; split; [reflexivity | exact H] | intros [_ H]; exact H].
  - split; [intros H | intros [H _]; discriminate H].
    apply lookup_lt_Some in H. lia.
Qed.

Lemma within n (a : io unit) (k : unit -> io unit) i :
  paced n a -> (i < n)%nat -> fst (bind a k) !! i = fst a !! i.
Proof.
  intros [La Ea] Hi. unfold bind. destruct (snd a) as [[] | e] eqn:E; cbn [fst]; [| reflexivity].
  apply lookup_app_l. rewrite (Ea eq_refl). exact Hi.
Qed.

Lemma first_line ps (k : unit -> io unit) s :
  fst (bind (printf rt ps) k) !! 0%nat = Some s <-> fstring rt ps = Ok s.
Proof.
  unfold printf. destruct (fstring rt ps) as [t | e]; cbn.
  - split; intros [= ->]; reflexivity.
  - split; intros H; discriminate H.
Qed.

Lemma only_line ps s : fst (printf rt ps) !! 0%nat = Some s <-> fstring rt ps = Ok s.
Proof.
  unfold printf. destruct (fstring rt ps) as [t | e]; cbn.
  - split; intros [= ->]; reflexivity.
  - split; intros H; discriminate H.
Qed.

Ltac pace :=
  repeat first
    [ apply paced_printf | apply paced_print
    | apply (paced_seq 1); [ first [ apply paced_printf | apply paced_print ] | ]
    | apply paced_eval; intros ? ].

Lemma paced_header now : paced 3 (header rt now).
Proof. unfold header. pace. Qed.

Lemma paced_basic_info miner : paced 2 (basic_info rt miner).
Proof. unfold basic_info. pace. Qed.






Lemma ok_header now : snd (header rt now) = Ok tt.
Proof. apply runs_header. Qed.

(** *** Numbers that are absent, wherever the renderer comes to them *)

Ltac pass n sec lem := rewrite (reach n sec) by first [ apply lem | lia ]; cbn [Nat.sub].
Ltac enter n sec lem := rewrite (within n sec) by first [ apply lem | lia ].
Ltac next_line := rewrite (reach 1 (printf _ _)) by first [ apply paced_printf | lia ]; cbn [Nat.sub].
Ltac this_line := first [ rewrite first_line | rewrite only_line ].




(** *** The status line, whatever is under [miner] *)

Lemma status_chain m :
  (get "miner_status" (VDict []) (VDict m) >>= get "miner_state" (VStr "N/A") >>= upper rt)
  = match state_text (VDict m) with
    | Some s => Ok (VStr (str_upper rt s))
    | None => Raise AttributeError
    end.
Proof.
  cbn [get rbind state_text]. destruct (dict_lookup "miner_status" m) as [[] |]; try reflexivity.
  cbn [get rbind]. destruct (dict_lookup "miner_state" d) as [[] |]; reflexivity.
Qed.

Lemma basic_info_fails m :
  state_text (VDict m) = None ->
  exists t, basic_info rt (VDict m) = ([t], Raise AttributeError).
Proof.
  intros H. unfold basic_info.
  destruct (printf_ok (nl +:+ "🔧 Miner Type: ")
              [Field (get "miner_type" (VStr "N/A") (VDict m))]) as [t Ht]; [pieces |].
  rewrite Ht. eexists. unfold printf. cbn [fstring piece_str].
  rewrite status_chain, H. reflexivity.
Qed.

(** C5, as it holds.  The status line is line 4 of the report.  When
    [miner] is a dict, [miner_status] is absent or a dict and [miner_state]
    is absent or a string, the line shows the upper-cased string at
    [miner.miner_status.miner_state], the default "N/A" when [miner_status]
    or [miner_state] is absent; the default is upper-cased too and is left
    as it is, and "mining" is shown as "MINING".  For every other value
    under [miner] the renderer ends with an [AttributeError] before the
    status line, which is not printed. *)
Theorem status_line_upper_cased now d miner :
  dict_lookup "miner" d = Some miner ->
  let result := parse_miner_stats rt now (VDict d) in
  match state_text miner with
  | Some s => fst result !! 4%nat = Some ("📊 Status: " +:+ str_upper rt s)
  | None => snd result = Raise AttributeError /\ fst result !! 4%nat = None
  end /\
  str_upper rt "N/A" = "N/A"%string /\
  str_upper rt "mining" = "MINING"%string.
Proof.
  intros Hd. cbv zeta. rewrite (parse_with_miner now d _ Hd).
  split; [| split; reflexivity].
  destruct (state_text miner) as [s |] eqn:E.
  - destruct miner as [| | | | | | m]; try discriminate E. unfold report.
    pass 3%nat (header rt now) paced_header.
    enter 2%nat (basic_info rt (VDict m)) paced_basic_info. unfold basic_info.
    next_line. this_line. cbn [fstring piece_str]. rewrite status_chain, E.
    cbn [rbind str_of]. rewrite append_nil_r.
    split; [apply ok_header |]. split; [| reflexivity].
    apply ok_printf. pieces.
  - unfold report. rewrite (bind_runs 3 [1%nat]) by apply runs_header.
    rewrite header_banner.
    destruct miner as [| | | | | | m]; try (split; reflexivity).
    destruct (basic_info_fails m E) as [t Ht].
    rewrite (bind_raise (basic_info rt (VDict m)) _ AttributeError) by (rewrite Ht; reflexivity).
    rewrite Ht. split; reflexivity.
Qed.

(** *** The cooling mode, whatever the links of its path hold *)








End Facts.

(** C1 at the empty document [{}]. *)
Lemma no_miner_single_line_witness :
  parse_miner_stats sample_runtime sample_now (VDict []) =
  (["No miner data available"], Ok tt).
Proof.
  apply (no_miner_single_line sample_runtime sample_now (VDict [])).
  left. reflexivity.
Defined.



(** C3 at the [miner] dict [{}] and the key [pools]. *)
Lemma absent_keys_render_as_defaults_witness :
  report sample_runtime sample_now (VDict ([] ++ [("pools", VList [])]))
  = report sample_runtime sample_now (VDict []).
Proof.
  apply (proj1 (absent_keys_render_as_defaults sample_runtime sample_now)
           [] "pools" (VList [])).
  - cbn. tauto.
  - reflexivity.
Defined.

(** The claim C3 fails for the [id] of an entry: an absent [id] is printed
    as [None], neither as 0 nor as "N/A". *)
Lemma absent_id_prints_None :
  fst (pool_body sample_runtime (VDict [])) !! 0%nat = Some "  ○ [None] N/A"%string /\
  fst (pool_body sample_runtime (VDict [("id", VInt 0)])) !! 0%nat
  = Some "  ○ [0] N/A"%string /\
  fst (pool_body sample_runtime (VDict [("id", VStr "N/A")])) !! 0%nat
  = Some "  ○ [N/A] N/A"%string /\
  fst (fan_body sample_runtime (VDict [])) !! 0%nat
  = Some "  • Fan None: 0 RPM (N/A)"%string /\
  fst (chain_body sample_runtime (VDict [])) !! 0%nat = Some "  • Chain None:"%string.
Proof. repeat split; vm_compute; reflexivity. Qed.

(** C4 at a document with one pool, two fans and one chain. *)
Lemma count_headings_witness :
  fst (parse_miner_stats sample_runtime sample_now (VDict busy_doc)) !! 22%nat
  = Some (nl +:+ "🏊 POOLS (1):") /\
  fst (parse_miner_stats sample_runtime sample_now (VDict busy_doc)) !! 26%nat
  = Some (nl +:+ "🌀 COOLING:") /\
  fst (parse_miner_stats sample_runtime sample_now (VDict busy_doc)) !! 31%nat
  = Some (nl +:+ "⛓️  HASH CHAINS (1):") /\
  fst (parse_miner_stats sample_runtime sample_now (VDict busy_doc)) !! 37%nat
  = Some (nl +:+ str_mul "=" 60) /\
  length (fst (parse_miner_stats sample_runtime sample_now (VDict busy_doc))) = 38.
Proof.
  pose proof (count_headings sample_runtime sample_now busy_doc busy_miner eq_refl eq_refl)
    as H.
  cbv zeta in H. destruct H as (Hp & Hc & Hh & Hf & Hl & _).
  repeat split; assumption.
Defined.

(** The claim C4 fails for the fans: with two fans the cooling section is its
    heading, the duty and mode lines and one line per fan, and no line of it
    shows the count 2. *)
Lemma cooling_heading_shows_no_count :
  cooling sample_runtime (VDict [("cooling", VDict [("fans", VList [VDict []; VDict []])])])
  = ([ nl +:+ "🌀 COOLING:"; "  • Fan Duty: 0%"; "  • Mode: N/A";
       "  • Fan None: 0 RPM (N/A)"; "  • Fan None: 0 RPM (N/A)" ]%string, Ok tt) /\
  forallb (fun line => negb (str_contains "2" line))
    (fst (cooling sample_runtime
            (VDict [("cooling", VDict [("fans", VList [VDict []; VDict []])])])))
  = true.
Proof. split; vm_compute; reflexivity. Qed.

(** C7 at the document with the single pool of the specification. *)
Lemma pool_entries_in_order_witness :
  pools sample_runtime (VDict [("pools", VList [VDict one_pool])])
  = ([ nl +:+ "🏊 POOLS (1):"; "  ✓ [1] stratum+tcp://pool.example:3333";
       "     Status: active | Diff: N/A";
       "     Accepted: 10 | Rejected: 0 | Stale: 0" ]%string, Ok tt).
Proof.
  exact (proj1 (pool_entries_in_order sample_runtime sample_now one_pool_doc
                  [("pools", VList [VDict one_pool])] [one_pool] eq_refl eq_refl)).
Defined.

(** An unread key, [uptime], in the [miner] dict of the busy document. *)
Lemma unread_keys_are_ignored_witness :
  report sample_runtime sample_now (VDict (("uptime", VInt 86400) :: busy_miner))
  = report sample_runtime sample_now (VDict busy_miner).
Proof.
  apply (unread_keys_are_ignored sample_runtime sample_now busy_miner "uptime" (VInt 86400)).
  reflexivity.
Defined.

(** The busy document is rendered to its end; a document whose average
    hashrate is [null] is not. *)
Lemma ends_normally_iff_renderable_witness :
  snd (parse_miner_stats sample_runtime sample_now (VDict busy_doc)) = Ok tt /\
  snd (parse_miner_stats sample_runtime sample_now (VDict null_hashrate_doc)) <> Ok tt.
Proof.
  split.
  - apply (proj1 (ends_normally_iff_renderable sample_runtime sample_now busy_doc
                    (VDict busy_miner) eq_refl)).
    reflexivity.
  - intros H.
    apply (proj1 (ends_normally_iff_renderable sample_runtime sample_now null_hashrate_doc
                    (VDict [("average_hashrate", VNone)]) eq_refl)) in H.
    discriminate H.
Defined.

(** A document whose [miner] is a list. *)
Lemma banner_precedes_any_failure_witness :
  parse_miner_stats sample_runtime sample_now (VDict [("miner", VList [])])
  = (banner sample_now, Raise AttributeError).
Proof.
  apply (proj2 (banner_precedes_any_failure sample_runtime sample_now
                  [("miner", VList [])] (VList []) eq_refl)).
  reflexivity.
Defined.

(** A document whose second pool is a string: the heading counts two pools,
    the first one is printed. *)
Lemma pool_not_a_dict_stops_report_witness :
  snd (parse_miner_stats sample_runtime sample_now (VDict [("miner", VDict bad_pool_miner)]))
  = Raise AttributeError /\
  drop 22 (fst (parse_miner_stats sample_runtime sample_now
                  (VDict [("miner", VDict bad_pool_miner)])))
  = pools_heading 2 :: pool_entry sample_runtime one_pool.
Proof.
  destruct (pool_not_a_dict_stops_report sample_runtime sample_now
              [("miner", VDict bad_pool_miner)] bad_pool_miner [one_pool]
              (VStr "stratum+tcp://b.example:3333") [] eq_refl eq_refl eq_refl eq_refl)
    as (He & Hl & _).
  split; [exact He | exact Hl].
Defined.

(** The two fans of the busy document. *)
Lemma fan_lines_in_order_witness :
  drop 3 (fst (cooling sample_runtime (VDict busy_miner)))
  = ["  • Fan 0: 4200 RPM (ok)"%string; "  • Fan None: 0 RPM (N/A)"%string].
Proof.
  exact (proj2 (proj2 (fan_lines_in_order sample_runtime busy_miner
                         [("fan_duty", VInt 80);
                          ("fans", VList [VDict [("id", VInt 0); ("rpm", VInt 4200);
                                                 ("status", VStr "ok")];
                                          VDict []])]
                         [[("id", VInt 0); ("rpm", VInt 4200); ("status", VStr "ok")]; []]
                         eq_refl eq_refl eq_refl))).
Defined.

(** The chain of the busy document. *)
Lemma chain_entries_in_order_witness :
  chains sample_runtime (VDict busy_miner)
  = ([chains_heading 1;
      "  • Chain 1:"%string;
      "     Frequency: 0 MHz | Voltage: 0 mV"%string;
      "     Hashrate: 31.00 GH/s (0.00%)"%string;
      "     Power: 0 W"%string;
      "     Chips: Grey=0, Orange=0, Red=0"%string], Ok tt).
Proof.
  exact (chain_entries_in_order sample_runtime busy_miner
           [[("id", VInt 1); ("hashrate_rt", VInt 31)]] eq_refl eq_refl).
Defined.

(** A list that holds the string "miner". *)
Lemma root_not_a_dict_witness :
  parse_miner_stats sample_runtime sample_now (VList [VStr "miner"]) = ([], Raise TypeError).
Proof. exact (root_not_a_dict sample_runtime sample_now (VList [VStr "miner"]) eq_refl). Defined.

(** C5 at [{"miner": {"miner_status": {"miner_state": "mining"}}}]. *)
Lemma status_line_upper_cased_witness :
  fst (parse_miner_stats sample_runtime sample_now (VDict mining_doc)) !! 4%nat
  = Some "📊 Status: MINING"%string.
Proof.
  exact (proj1 (status_line_upper_cased sample_runtime sample_now mining_doc
                  (VDict [("miner_status", VDict [("miner_state", VStr "mining")])])
                  eq_refl)).
Defined.

(** The claim C5 fails for a [miner_status] that is [null]: the renderer
    prints the banner and the miner type, then [None.get] raises
    [AttributeError], and no status line is printed. *)
Lemma null_miner_status_prints_no_status_line :
  parse_miner_stats sample_runtime sample_now (VDict null_status_doc)
  = (banner sample_now ++ [nl +:+ "🔧 Miner Type: N/A"], Raise AttributeError) /\
  fst (parse_miner_stats sample_runtime sample_now (VDict null_status_doc)) !! 4%nat = None.
Proof. split; vm_compute; reflexivity. Qed.





End ReportFacts.

(** ** Properties of the client *)

Module HttpFacts.
Import Py Http.

(** C10.  An API key that is passed but false ([None] or the empty string)
    counts as absent: the key of the object is the value of the environment
    variable [MINER_API_KEY].  If that is absent or empty too, the headers
    are the [accept] header alone, without an [Authorization] header;
    otherwise the [Authorization] header carries the variable's value. *)
Theorem false_key_falls_back_to_environment base key environ :
  truthy_opt key = false ->
  api_key (init base key environ) = environ !! "MINER_API_KEY" /\
  (truthy_opt (environ !! "MINER_API_KEY") = false ->
   headers (init base key environ) = {[ "accept" := "application/json" ]} /\
   headers (init base key environ) !! "Authorization" = None) /\
  (forall k, environ !! "MINER_API_KEY" = Some k -> k <> EmptyString ->
   headers (init base key environ)
   = <[ "Authorization" := "Bearer " +:+ k ]> {[ "accept" := "application/json" ]}).
Proof.
  intros Hkey. unfold init, or_else. rewrite Hkey. cbn [api_key headers].
  split; [reflexivity |]. split.
  - intros ->. split; [reflexivity |]. reflexivity.
  - intros k -> Hk. cbn [truthy_opt str_opt].
    destruct (String.eqb k EmptyString) eqn:E.
    + apply String.eqb_eq in E. contradiction.
    + reflexivity.
Qed.

(** C10 at an empty key with an environment that does not set the
    variable. *)
Lemma false_key_falls_back_to_environment_witness :
  api_key (init "http://172.16.58.104" (Some EmptyString) ∅) = None /\
  headers (init "http://172.16.58.104" (Some EmptyString) ∅)
  = {[ "accept" := "application/json" ]}.
Proof.
  destruct (false_key_falls_back_to_environment
              "http://172.16.58.104" (Some EmptyString) ∅ eq_refl) as (Hk & Hh & _).
  split; [exact Hk | exact (proj1 (Hh eq_refl))].
Defined.

(** C9, as it holds.  For [check_auth] and [get_summary] alike: when the
    request fails in the transport (a connection error, a timeout: a
    [RequestException] of [requests.get]) or the response has a status from
    400 to 599, the call returns the empty dict and lets no exception
    through; when the response has any other status, 2xx among them, and a
    JSON body, the call returns the decoded body and prints nothing. *)
Theorem request_errors_give_empty_dict send api call path :
  In (call, path) calls ->
  (forall e, send (request_of api path) = inl e -> is_request_exception e = true ->
             snd (call send api) = Returns (VDict [])) /\
  (forall r, send (request_of api path) = inr r ->
             (400 <= status_code r < 600)%Z ->
             snd (call send api) = Returns (VDict [])) /\
  (forall r v, send (request_of api path) = inr r ->
               ~ (400 <= status_code r < 600)%Z -> json r = inr v ->
               call send api = ([], Returns v)).
Proof.
  intros Hin.
  assert (Hcall : exists label, call send api
                                = except_request_exception label (attempt send api path)).
  { cbn [In calls] in Hin. destruct Hin as [[= <- <-] | [[= <- <-] | []]]; eexists; reflexivity. }
  destruct Hcall as [label ->]. unfold attempt, except_request_exception.
  repeat split.
  - intros e -> He. rewrite He. reflexivity.
  - intros r -> Hs. unfold raise_for_status.
    destruct ((400 <=? status_code r) && (status_code r <? 500))%Z eqn:E4; [reflexivity |].
    destruct ((500 <=? status_code r) && (status_code r <? 600))%Z eqn:E5; [reflexivity |].
    apply andb_false_iff in E4, E5. lia.
  - intros r v -> Hs Hv. unfold raise_for_status.
    destruct ((400 <=? status_code r) && (status_code r <? 500))%Z eqn:E4;
      [apply andb_true_iff in E4; lia |].
    destruct ((500 <=? status_code r) && (status_code r <? 600))%Z eqn:E5;
      [apply andb_true_iff in E5; lia |].
    rewrite Hv. reflexivity.
Qed.

(** C9 at [get_summary] and a server that answers [404 Not Found]. *)
Lemma request_errors_give_empty_dict_witness :
  snd (get_summary
         (fun req => inr {| status_code := 404; reason := "Not Found";
                            url := req_url req; json := inl {| is_request_exception := true;
                                                               message := "no JSON" |} |})
         (init "http://172.16.58.104" None ∅))
  = Returns (VDict []).
Proof.
  refine (proj1 (proj2 (request_errors_give_empty_dict _ _ get_summary "/api/v1/summary" _))
            _ eq_refl _).
  - right. left. reflexivity.
  - cbn. lia.
Defined.

(** The claim C9 fails for a status that is neither 2xx nor an error status:
    the body of a [300] response is returned as it is. *)
Lemma body_of_300_response_is_returned :
  get_summary redirecting_server (init "http://172.16.58.104" None ∅)
  = ([], Returns (VDict [("miner", VDict [])])).
Proof. reflexivity. Qed.

(** An API key that is passed and not empty is the key of the object,
    whatever the environment holds: the headers are the [accept] header and
    an [Authorization] header that carries the key, and the object is the
    one built in an empty environment. *)
Theorem explicit_key_takes_precedence base k environ :
  k <> EmptyString ->
  api_key (init base (Some k) environ) = Some k /\
  headers (init base (Some k) environ)
  = <[ "Authorization" := "Bearer " +:+ k ]> {[ "accept" := "application/json" ]} /\
  init base (Some k) environ = init base (Some k) ∅.
Proof.
  intros Hk. unfold init, or_else. cbn [truthy_opt].
  destruct (String.eqb k EmptyString) eqn:E.
  - apply String.eqb_eq in E. contradiction.
  - cbn [negb truthy_opt]. rewrite E. repeat split; reflexivity.
Qed.

(** The key "secret" with an environment that sets the variable to another
    value. *)
Lemma explicit_key_takes_precedence_witness :
  api_key (init default_base_url (Some "secret") {[ "MINER_API_KEY" := "other" ]})
  = Some "secret"%string.
Proof.
  refine (proj1 (explicit_key_takes_precedence default_base_url "secret"
                   {[ "MINER_API_KEY" := "other" ]} _)).
  discriminate.
Defined.

Lemma propagated_not_request_exception label r e :
  snd (except_request_exception label r) = Propagates e ->
  is_request_exception e = false /\ fst (except_request_exception label r) = [].
Proof.
  unfold except_request_exception. destruct r as [e' | v]; [| discriminate].
  destruct (is_request_exception e') eqn:E; [discriminate |].
  cbn [fst snd]. intros [= <-]. split; [exact E | reflexivity].
Qed.

(** The line an [except] clause prints opens no section of a report, when
    its label opens none. *)
Lemma printed_line_opens_no_section label r :
  (forall t, Report.section_marker (label +:+ t) = None) ->
  omap Report.section_marker (fst (except_request_exception label r)) = [].
Proof.
  intros H. unfold except_request_exception. destruct r as [e | v]; [| reflexivity].
  destruct (is_request_exception e); [| reflexivity].
  cbn [fst omap list_omap]. rewrite H. reflexivity.
Qed.

Lemma call_unfold api call path :
  In (call, path) calls ->
  exists label, forall send',
    call send' api = except_request_exception label (attempt send' api path).
Proof.
  intros Hin. cbn [In calls] in Hin.
  destruct Hin as [[= <- <-] | [[= <- <-] | []]]; eexists; intros; reflexivity.
Qed.

(** What a call never does.  It prints at most one line.  It lets no
    [RequestException] through, and prints nothing when it lets another
    exception through.  When it prints a line, it returns the empty dict.
    It depends on the server through the one request it sends. *)
Theorem calls_print_at_most_one_line send api call path :
  In (call, path) calls ->
  (length (fst (call send api)) <= 1)%nat /\
  (forall e, snd (call send api) = Propagates e ->
             is_request_exception e = false /\ fst (call send api) = []) /\
  (fst (call send api) <> [] -> snd (call send api) = Returns (VDict [])) /\
  (forall send', send' (request_of api path) = send (request_of api path) ->
                 call send' api = call send api).
Proof.
  intros Hin. destruct (call_unfold api call path Hin) as [label Hcall].
  rewrite (Hcall send). unfold except_request_exception.
  split; [| split; [| split]].
  - destruct (attempt send api path) as [e | v]; [| cbn; lia].
    destruct (is_request_exception e); cbn; lia.
  - intros e H. exact (propagated_not_request_exception label _ e H).
  - intros H. destruct (attempt send api path) as [e | v]; [| contradiction].
    destruct (is_request_exception e); [reflexivity | contradiction].
  - intros send' Hs. rewrite (Hcall send'). unfold attempt. rewrite Hs. reflexivity.
Qed.

(** [check_auth] against a transport whose every request times out. *)
Lemma calls_print_at_most_one_line_witness :
  (length (fst (check_auth unreachable (init default_base_url None ∅))) <= 1)%nat.
Proof.
  refine (proj1 (calls_print_at_most_one_line unreachable (init default_base_url None ∅)
                   check_auth "/api/v1/auth-check" _)).
  left. reflexivity.
Defined.

End HttpFacts.

(** ** Properties of the script *)

Module MainFacts.
Import Py Report Http Main.

Section Runs.
Variable rt : runtime.

Lemma main_returns h auth v :
  snd (check_auth (send h) (client h)) = Returns auth ->
  snd (get_summary (send h) (client h)) = Returns v ->
  main rt h = show rt h (preamble h auth) v.
Proof.
  unfold main, preamble.
  destruct (check_auth (send h) (client h)) as [l1 o1].
  destruct (get_summary (send h) (client h)) as [l2 o2].
  cbn [fst snd]. intros -> ->. reflexivity.
Qed.

(** When the summary call returns a false value, as it does after every
    request error, the script prints "Failed to retrieve miner data" as its
    last line, renders nothing, writes no file and returns. *)
Theorem failed_summary_saves_nothing h auth :
  snd (check_auth (send h) (client h)) = Returns auth ->
  (forall v, snd (get_summary (send h) (client h)) = Returns v -> truthy v = false ->
     main rt h = {| printed := preamble h auth ++ ["Failed to retrieve miner data"%string];
                    files := []; ended := Finished |}) /\
  (forall e, attempt (send h) (client h) "/api/v1/summary" = inl e ->
     is_request_exception e = true ->
     main rt h
     = {| printed := (["Checking authentication..."%string]
                      ++ fst (check_auth (send h) (client h))
                      ++ ["Auth Status: " +:+ dumps h auth +:+ nl;
                          "Fetching miner summary..."%string])
                     ++ ["Error getting summary: " +:+ message e;
                         "Failed to retrieve miner data"%string];
          files := []; ended := Finished |}).
Proof.
  intros Ha. split.
  - intros v Hv Ht. rewrite (main_returns h auth v Ha Hv). unfold show. rewrite Ht. reflexivity.
  - intros e He Hr.
    assert (Hs : get_summary (send h) (client h)
                 = (["Error getting summary: " +:+ message e], Returns (VDict []))).
    { unfold get_summary, except_request_exception. rewrite He, Hr. reflexivity. }
    rewrite (main_returns h auth (VDict [])) by (rewrite ?Hs; auto).
    unfold show, preamble. rewrite Hs. cbn [truthy fst]. rewrite <- app_assoc. reflexivity.
Qed.

(** A file is written only after the report was rendered to its end.  There
    is at most one file; it is named [miner_stats_<stamp>.json] and holds the
    summary as it was received; the line naming it is the last one
    printed. *)
Theorem file_only_after_complete_rendering h name content :
  In (name, content) (files (main rt h)) ->
  name = "miner_stats_" +:+ file_stamp h +:+ ".json" /\
  files (main rt h) = [(name, content)] /\
  ended (main rt h) = Finished /\
  last (printed (main rt h)) = Some (nl +:+ "💾 Data saved to: " +:+ name) /\
  exists v, snd (get_summary (send h) (client h)) = Returns v /\
            truthy v = true /\
            content = dumps h v /\
            snd (parse_miner_stats rt (report_stamp h) v) = Ok tt.
Proof.
  unfold main.
  destruct (check_auth (send h) (client h)) as [l1 [auth | e]]; [| intros []].
  destruct (get_summary (send h) (client h)) as [l2 [v | e]]; [| intros []].
  unfold show. destruct (truthy v) eqn:Ht; [| intros []].
  destruct (parse_miner_stats rt (report_stamp h) v) as [l3 [[] | e]] eqn:Hp; [| intros []].
  unfold save. destruct (writable h (filename h)); [| intros []].
  cbn [files printed ended]. intros [[= <- <-] | []].
  repeat split; try reflexivity.
  - rewrite last_snoc. reflexivity.
  - exists v. rewrite Hp. repeat split; first [ reflexivity | exact Ht ].
Qed.

(** A summary that is a non-empty dict without a [miner] key is not
    rendered, yet it is saved: the script prints "No miner data available",
    writes the file and names it. *)
Theorem no_miner_document_is_saved h auth d :
  snd (check_auth (send h) (client h)) = Returns auth ->
  snd (get_summary (send h) (client h)) = Returns (VDict d) ->
  d <> [] ->
  dict_lookup "miner" d = None ->
  writable h (filename h) = true ->
  main rt h
  = {| printed := preamble h auth ++ ["No miner data available"%string; saved_line h];
       files := [(filename h, dumps h (VDict d))];
       ended := Finished |}.
Proof.
  intros Ha Hs Hd Hm Hw. rewrite (main_returns h auth _ Ha Hs). unfold show.
  destruct d as [| kv d']; [contradiction |]. cbn [truthy].
  rewrite (ReportFacts.parse_without_miner rt _ _ Hm). unfold save. rewrite Hw.
  rewrite <- app_assoc. reflexivity.
Qed.

Ltac lines_agree :=
  cbn [app]; rewrite <- ?app_assoc; cbn [app]; rewrite <- ?app_assoc; split; reflexivity.

(** The result of the authentication check is printed and not used: with
    another answer to the check, the script goes on in the same way, from
    the request of the summary to the file. *)
Theorem auth_status_is_not_used h s auth auth' :
  snd (check_auth (send h) (client h)) = Returns auth ->
  snd (check_auth s (client h)) = Returns auth' ->
  s (request_of (client h) "/api/v1/summary")
  = send h (request_of (client h) "/api/v1/summary") ->
  files (main rt (with_send h s)) = files (main rt h) /\
  ended (main rt (with_send h s)) = ended (main rt h) /\
  exists rest,
    printed (main rt h)
    = ["Checking authentication..."%string] ++ fst (check_auth (send h) (client h))
      ++ ["Auth Status: " +:+ dumps h auth +:+ nl] ++ rest /\
    printed (main rt (with_send h s))
    = ["Checking authentication..."%string] ++ fst (check_auth s (client h))
      ++ ["Auth Status: " +:+ dumps h auth' +:+ nl] ++ rest.
Proof.
  intros Ha Ha' Hs.
  assert (Hsum : get_summary s (client h) = get_summary (send h) (client h)).
  { unfold get_summary, attempt. rewrite Hs. reflexivity. }
  unfold main. change (client (with_send h s)) with (client h).
  change (send (with_send h s)) with s. rewrite Hsum.
  destruct (check_auth (send h) (client h)) as [l1 o1].
  destruct (check_auth s (client h)) as [l1' o1'].
  cbn [snd] in Ha, Ha'. subst o1 o1'. cbn [fst].
  destruct (get_summary (send h) (client h)) as [l2 [v | e]].
  - unfold show. change (report_stamp (with_send h s)) with (report_stamp h).
    destruct (truthy v).
    + destruct (parse_miner_stats rt (report_stamp h) v) as [l3 [[] | e]].
      * unfold save. change (filename (with_send h s)) with (filename h).
        change (writable (with_send h s)) with (writable h).
        change (dumps (with_send h s)) with (dumps h).
        change (saved_line (with_send h s)) with (saved_line h).
        destruct (writable h (filename h)); cbn [files ended printed].
        -- repeat split.
           exists ("Fetching miner summary..."%string :: l2 ++ l3 ++ [saved_line h]).
           lines_agree.
        -- repeat split.
           exists ("Fetching miner summary..."%string :: l2 ++ l3).
           lines_agree.
      * cbn [files ended printed]. repeat split.
        exists ("Fetching miner summary..."%string :: l2 ++ l3).
        lines_agree.
    + cbn [files ended printed]. repeat split.
      exists ("Fetching miner summary..."%string :: l2 ++ ["Failed to retrieve miner data"%string]).
      lines_agree.
  - cbn [files ended printed]. repeat split.
    exists ("Fetching miner summary..."%string :: l2).
    lines_agree.
Qed.

(** With a [miner] in the summary, the script saves the summary exactly when
    the [miner] is renderable: then it prints the whole report, writes the
    file and names it; otherwise an exception of the renderer ends the
    script and no file is written. *)
Theorem summary_saved_iff_renderable h auth d miner :
  snd (check_auth (send h) (client h)) = Returns auth ->
  snd (get_summary (send h) (client h)) = Returns (VDict d) ->
  dict_lookup "miner" d = Some miner ->
  writable h (filename h) = true ->
  (renderable miner = true ->
   main rt h
   = {| printed := preamble h auth ++ fst (report rt (report_stamp h) miner) ++ [saved_line h];
        files := [(filename h, dumps h (VDict d))];
        ended := Finished |}) /\
  (renderable miner = false ->
   files (main rt h) = [] /\ exists e, ended (main rt h) = RenderError e).
Proof.
  intros Ha Hs Hm Hw. rewrite (main_returns h auth _ Ha Hs). unfold show.
  rewrite (ReportFacts.dict_lookup_some_truthy _ _ _ Hm).
  rewrite (ReportFacts.parse_with_miner rt _ _ _ Hm).
  pose proof (ReportFacts.report_ok_iff rt (report_stamp h) miner) as Hok.
  destruct (report rt (report_stamp h) miner) as [l [[] | e]]; cbn [fst snd] in *.
  - split.
    + intros _. unfold save. rewrite Hw. rewrite <- app_assoc. reflexivity.
    + intros Hr. rewrite (proj1 Hok eq_refl) in Hr. discriminate Hr.
  - split.
    + intros Hr. apply Hok in Hr. discriminate Hr.
    + intros _. split; [reflexivity | eexists; reflexivity].
Qed.

(** No [RequestException] leaves the script: an exception that a call of
    the client lets through is of another class; the script stops where it
    was raised, without a report and without a file. *)
Theorem no_request_exception_leaves_main h e :
  ended (main rt h) = Uncaught e ->
  is_request_exception e = false /\
  files (main rt h) = [] /\
  sections_of (printed (main rt h)) = [].
Proof.
  unfold main, check_auth, get_summary.
  set (a := except_request_exception "Error checking auth: " _).
  set (s := except_request_exception "Error getting summary: " _).
  pose proof (HttpFacts.propagated_not_request_exception
                "Error checking auth: " (attempt (send h) (client h) "/api/v1/auth-check")) as Ha.
  pose proof (HttpFacts.propagated_not_request_exception
                "Error getting summary: " (attempt (send h) (client h) "/api/v1/summary")) as Hs.
  pose proof (HttpFacts.printed_line_opens_no_section
                "Error checking auth: " (attempt (send h) (client h) "/api/v1/auth-check")
                (fun _ => eq_refl)) as Sa.
  fold a in Ha, Sa. fold s in Hs.
  destruct a as [l1 [auth | e1]]; cbn [fst snd] in *.
  - destruct s as [l2 [v | e2]]; cbn [fst snd] in *.
    + unfold show. destruct (truthy v).
      * destruct (parse_miner_stats rt (report_stamp h) v) as [l3 [[] | x]];
          [unfold save; destruct (writable h (filename h)) |]; discriminate.
      * discriminate.
    + cbn [ended files printed]. intros [= <-]. destruct (Hs e2 eq_refl) as [He ->].
      split; [exact He |]. split; [reflexivity |].
      rewrite app_nil_r. unfold sections_of. rewrite !omap_app, Sa. reflexivity.
  - cbn [ended files printed]. intros [= <-]. destruct (Ha e1 eq_refl) as [He ->].
    split; [exact He |]. split; reflexivity.
Qed.

End Runs.

(** A miner that cannot be reached: six lines are printed, no file is
    written. *)
Lemma failed_summary_saves_nothing_witness :
  main sample_runtime (sample_host unreachable)
  = {| printed := ["Checking authentication..."; "Error checking auth: timed out";
                   "Auth Status: {}" +:+ nl; "Fetching miner summary...";
                   "Error getting summary: timed out"; "Failed to retrieve miner data"]%string;
       files := []; ended := Finished |}.
Proof.
  exact (proj2 (failed_summary_saves_nothing sample_runtime (sample_host unreachable)
                  (VDict []) eq_refl)
           {| is_request_exception := true; message := "timed out" |} eq_refl eq_refl).
Defined.

(** The busy document behind a server that refuses the authentication
    check. *)
Lemma file_only_after_complete_rendering_witness :
  files (main sample_runtime (sample_host (unauthorized_server (VDict busy_doc))))
  = [("miner_stats_20240501_120000.json"%string, repr sample_runtime (VDict busy_doc))] /\
  ended (main sample_runtime (sample_host (unauthorized_server (VDict busy_doc)))) = Finished.
Proof.
  destruct (file_only_after_complete_rendering sample_runtime
              (sample_host (unauthorized_server (VDict busy_doc)))
              "miner_stats_20240501_120000.json"
              (repr sample_runtime (VDict busy_doc)))
    as (_ & Hf & He & _).
  - left. vm_compute. reflexivity.
  - split; [exact Hf | exact He].
Defined.

(** A summary that reports an error instead of a miner. *)
Lemma no_miner_document_is_saved_witness :
  files (main sample_runtime (sample_host (serving (VDict [("error", VStr "busy")]))))
  = [("miner_stats_20240501_120000.json"%string, "{'error': 'busy'}"%string)].
Proof.
  rewrite (no_miner_document_is_saved sample_runtime
             (sample_host (serving (VDict [("error", VStr "busy")])))
             (VDict [("error", VStr "busy")]) [("error", VStr "busy")]
             eq_refl eq_refl ltac:(discriminate) eq_refl eq_refl).
  reflexivity.
Defined.

(** The busy document, with the authentication check refused and
    accepted. *)
Lemma auth_status_is_not_used_witness :
  files (main sample_runtime (sample_host (serving (VDict busy_doc))))
  = files (main sample_runtime (sample_host (unauthorized_server (VDict busy_doc)))).
Proof.
  exact (proj1 (auth_status_is_not_used sample_runtime
                  (sample_host (unauthorized_server (VDict busy_doc)))
                  (serving (VDict busy_doc)) (VDict []) (VDict busy_doc)
                  eq_refl eq_refl eq_refl)).
Defined.

(** The busy document and the document whose average hashrate is [null]. *)
Lemma summary_saved_iff_renderable_witness :
  ended (main sample_runtime (sample_host (serving (VDict busy_doc)))) = Finished /\
  files (main sample_runtime (sample_host (serving (VDict null_hashrate_doc)))) = [].
Proof.
  split.
  - rewrite (proj1 (summary_saved_iff_renderable sample_runtime
                      (sample_host (serving (VDict busy_doc)))
                      (VDict busy_doc) busy_doc (VDict busy_miner)
                      eq_refl eq_refl eq_refl eq_refl) eq_refl).
    reflexivity.
  - exact (proj1 (proj2 (summary_saved_iff_renderable sample_runtime
                           (sample_host (serving (VDict null_hashrate_doc)))
                           (VDict null_hashrate_doc) null_hashrate_doc
                           (VDict [("average_hashrate", VNone)])
                           eq_refl eq_refl eq_refl eq_refl) eq_refl)).
Defined.

(** A run interrupted during the authentication check. *)
Lemma no_request_exception_leaves_main_witness :
  files (main sample_runtime (sample_host interrupted)) = [].
Proof.
  exact (proj1 (proj2 (no_request_exception_leaves_main sample_runtime
                         (sample_host interrupted)
                         {| is_request_exception := false; message := "KeyboardInterrupt" |}
                         eq_refl))).
Defined.

End MainFacts.
